(** * bookprocess: ISBN-13 generation and change audit

    A shallow embedding of the identifier and audit code of the
    [bookprocess] Django application:
    - [utils.py]: [isbn13_check_digit], [_normalize_nat_code],
      [_is_allowed_nat_code], [_get_main_author_code_from_book],
      [generate_unique_isbn_for_nationality], [generate_unique_isbn_from_book];
    - [models.py]: [Book.generate_isbn], [BookAuthor.save];
    - [admin.py]: [BookAdmin._update_book_isbn_if_needed],
      [_snapshot_book_state], [_diff_snapshots] and the update branch of
      [save_formset];
    - [services.py]: [AuditLogService.log_book_update].

    A Python [str] is a Rocq [string], one [ascii] per code point
    U+0000..U+00FF; a Python [int] is a [Z]; a [dict] is a [gmap]; a
    database table is the list of its rows in storage order. *)

From Stdlib Require Import ZArith Ascii String List Bool Lia.
From stdpp Require Import gmap strings.
Import ListNotations.

(** ** Python builtins used by the code *)
Module Py.

(** The exceptions the modelled code raises or lets through. *)
Inductive exn : Type :=
| ValueError
| RuntimeError
| IndexError
| DatabaseError.

Inductive result (A : Type) : Type :=
| Ok (a : A)
| Raise (e : exn).
Arguments Ok {A} a.
Arguments Raise {A} e.

Definition code (c : ascii) : N := N_of_ascii c.

(** A character [c] for which ['0' <= c <= '9']. *)
Definition is_ascii_digit (c : ascii) : bool :=
(48 <=? code c)%N && (code c <=? 57)%N.

(** [ch.isdigit()] for one character.  [str.isdigit] follows the Unicode
  property Numeric_Type in (Digit, Decimal): below U+0100 these are the
  ten ASCII digits and the superscripts U+00B2, U+00B3 and U+00B9. *)
Definition isdigit_char (c : ascii) : bool :=
is_ascii_digit c
|| (code c =? 178)%N || (code c =? 179)%N || (code c =? 185)%N.

(** [ch.isspace()] below U+0100: U+0009..U+000D, U+001C..U+0020, U+0085
  and U+00A0. *)
Definition isspace_char (c : ascii) : bool :=
((9 <=? code c)%N && (code c <=? 13)%N)
|| ((28 <=? code c)%N && (code c <=? 32)%N)
|| (code c =? 133)%N || (code c =? 160)%N.

Fixpoint str_forallb (p : ascii -> bool) (s : string) : bool :=
match s with
| EmptyString => true
| String c r => p c && str_forallb p r
end.

(** ["".join(ch for ch in s if p(ch))] *)
Fixpoint str_filter (p : ascii -> bool) (s : string) : string :=
match s with
| EmptyString => EmptyString
| String c r => if p c then String c (str_filter p r) else str_filter p r
end.

(** [s.isdigit()]: every character is a digit and there is at least one. *)
Definition isdigit (s : string) : bool :=
match s with
| EmptyString => false
| _ => str_forallb isdigit_char s
end.

(** A string of ASCII digits only (possibly empty). *)
Definition ascii_digits (s : string) : bool := str_forallb is_ascii_digit s.

(** [s[:n]] *)
Fixpoint str_take (n : nat) (s : string) : string :=
match n, s with
| S k, String c r => String c (str_take k r)
| _, _ => EmptyString
end.

(** [s[n:]] *)
Fixpoint str_drop (n : nat) (s : string) : string :=
match n, s with
| S k, String _ r => str_drop k r
| _, _ => s
end.

(** [s[i:j]] for [0 <= i <= j]. *)
Definition slice (i j : nat) (s : string) : string :=
str_take (j - i) (str_drop i s).

Fixpoint str_repeat (c : ascii) (n : nat) : string :=
match n with
| O => EmptyString
| S k => String c (str_repeat c k)
end.

(** [s.rjust(width, fill)] *)
Definition rjust (width : nat) (fill : ascii) (s : string) : string :=
String.append (str_repeat fill (width - String.length s)) s.

Fixpoint lstrip (s : string) : string :=
match s with
| String c r => if isspace_char c then lstrip r else s
| EmptyString => EmptyString
end.

Fixpoint rstrip (s : string) : string :=
match s with
| EmptyString => EmptyString
| String c r =>
    match rstrip r with
    | EmptyString => if isspace_char c then EmptyString else String c EmptyString
    | r' => String c r'
    end
end.

(** [s.strip()] *)
Definition strip (s : string) : string := rstrip (lstrip s).

(** The decimal digit [d] (0..9) as a character. *)
Definition digit_char (d : Z) : ascii := ascii_of_N (Z.to_N (48 + d)).

(** The value of an ASCII digit. *)
Definition digit_value (c : ascii) : Z := Z.of_N (code c) - 48.

Fixpoint dec_digits (fuel : nat) (n : Z) (acc : string) : string :=
match fuel with
| O => acc
| S f =>
    let acc' := String (digit_char (n mod 10)) acc in
    if (n / 10 =? 0)%Z then acc' else dec_digits f (n / 10) acc'
end.

(** The decimal numeral of [n >= 0], without leading zeros. *)
Definition dec_of_nonneg (n : Z) : string :=
dec_digits (S (Z.to_nat (Z.log2 n))) n EmptyString.

(** [str(n)] for an [int]. *)
Definition str_of_int (n : Z) : string :=
if (n <? 0)%Z then String "-"%char (dec_of_nonneg (- n)) else dec_of_nonneg n.

(** [f"{n:0{width}d}"]: zero padding goes between the sign and the digits. *)
Definition format_0d (width : nat) (n : Z) : string :=
if (n <? 0)%Z
then String "-"%char (rjust (width - 1) "0"%char (dec_of_nonneg (- n)))
else rjust width "0"%char (dec_of_nonneg n).

Fixpoint int_digits (acc : Z) (s : string) : Z :=
match s with
| EmptyString => acc
| String c r => int_digits (10 * acc + digit_value c) r
end.

(** [int(s)] on numerals without sign, blank or underscore: a non-empty
  string of ASCII digits gives its decimal value, any other string here
  raises [ValueError].  This is exact on every string whose characters
  all pass [isdigit_char] (the superscripts are digits for [isdigit] but
  not decimal characters for [int]), which is what
  [isbn13_check_digit] and [_normalize_nat_code] let through.  Python
  also accepts surrounding blanks, a sign and single underscores, none of
  which a character accepted by [isdigit] is. *)
Definition int (s : string) : result Z :=
match s with
| EmptyString => Raise ValueError
| _ => if ascii_digits s then Ok (int_digits 0 s) else Raise ValueError
end.

(** [sep.join(l)] *)
Fixpoint join (sep : string) (l : list string) : string :=
match l with
| [] => EmptyString
| [x] => x
| x :: r => String.append x (String.append sep (join sep r))
end.

End Py.
Import Py.

(** ** utils.py: check digit and classification code *)

Definition PREFIXES : list string := ["978"%string; "979"%string].

Fixpoint check_digit_loop (i : nat) (total : Z) (s : string) : result Z :=
  match s with
  | EmptyString => Ok total
  | String ch r =>
      let weight := if (Nat.modulo i 2 =? 0)%nat then 1%Z else 3%Z in
      match int (String ch EmptyString) with
      | Ok d => check_digit_loop (S i) (total + d * weight) r
      | Raise e => Raise e
      end
  end.

Definition isbn13_check_digit (digits12 : string) : result string :=
  if negb (String.length digits12 =? 12)%nat || negb (isdigit digits12)
  then Raise ValueError
  else
    match check_digit_loop 0 0 digits12 with
    | Ok total => Ok (str_of_int ((10 - total mod 10) mod 10))
    | Raise e => Raise e
    end.

Definition _normalize_nat_code (nat_code : option string) : string :=
  match nat_code with
  | None => "000"
  | Some EmptyString => "000"
  | Some raw =>
      let s := strip raw in
      let digits := str_filter isdigit_char s in
      match digits with
      | EmptyString => "000"
      | _ =>
          if (3 <=? String.length digits)%nat then str_take 3 digits
          else rjust 3 "0"%char digits
      end
  end.

Definition _is_allowed_nat_code (code3 : string) : bool :=
  if String.eqb code3 "000" || String.eqb code3 "111" then true
  else
    match int code3 with
    | Raise _ => false
    | Ok n =>
        if (600 <=? n)%Z && (n <=? 621)%Z then true
        else if (950 <=? n)%Z && (n <=? 989)%Z then true
        else false
    end.


(** ** models.py: the rows of the catalogue *)

Module Nationality.
Record t : Type := { name : string; code : string }.
End Nationality.

Module Genre.
Record t : Type := { name : string }.
End Genre.

Module Author.
Record t : Type :=
  { first_name : string;
    last_name : string;
    (** the foreign key, [None] when the reference is missing *)
    nationality : option Nationality.t }.

(** [Author.__str__] *)
Definition str (a : t) : string :=
  String.append (first_name a) (String.append " " (last_name a)).
End Author.

Module Book.
Record t : Type :=
  { pk : Z;
    title : string;
    genre : option Genre.t;
    (** the stored file name of the cover, if any *)
    cover : option string;
    adapted : bool;
    film_title : option string;
    (** the empty string until an identifier is assigned *)
    isbn : string }.

Definition set_isbn (b : t) (i : string) : t :=
  {| pk := pk b; title := title b; genre := genre b; cover := cover b;
     adapted := adapted b; film_title := film_title b; isbn := i |}.

(** [Book.__str__] *)
Definition str (b : t) : string :=
  String.append (title b)
    (String.append " (" (String.append (isbn b) ")")).
End Book.

Module BookAuthor.
Record t : Type :=
  { (** [None] until the row is first saved *)
    pk : option Z;
    (** primary key of the book *)
    book : Z;
    author : Author.t;
    order : Z }.


End BookAuthor.

(** ** Values stored in snapshots and audit records *)

Inductive PyVal : Type :=
| VNone
| VBool (b : bool)
| VInt (n : Z)
| VStr (s : string).

Definition int_of_bool (b : bool) : Z := if b then 1 else 0.

(** Python's [==] on these values: [bool] is a subtype of [int]. *)
Definition py_eq (x y : PyVal) : bool :=
  match x, y with
  | VNone, VNone => true
  | VBool a, VBool b => Bool.eqb a b
  | VInt a, VInt b => (a =? b)%Z
  | VBool a, VInt b | VInt b, VBool a => (int_of_bool a =? b)%Z
  | VStr a, VStr b => String.eqb a b
  | _, _ => false
  end.

(** Python's [!=]. *)
Definition py_ne (x y : PyVal) : bool := negb (py_eq x y).

Inductive Action : Type := CREATE | UPDATE.

Module LogEntry.
(** The fields of an audit record the code fills in from its arguments;
    the content type and the clock reading are left out. *)
Record t : Type :=
  { object_pk : string;
    object_repr : string;
    action : Action;
    changes : gmap string (PyVal * PyVal);
    actor : string }.
End LogEntry.

(** ** The world the code runs in *)

(** The database tables, the random source of the [random] module and the
    trace of identifier lookups sent to the [Book] table. *)
Record World : Type :=
  { tape : nat -> N;
    rng_pos : nat;
    book_table : list Book.t;
    bookauthor_table : list BookAuthor.t;
    isbn_lookups : list string;
    audit_log : list LogEntry.t }.

Definition set_rng_pos (w : World) (p : nat) : World :=
  {| tape := tape w; rng_pos := p; book_table := book_table w;
     bookauthor_table := bookauthor_table w; isbn_lookups := isbn_lookups w;
     audit_log := audit_log w |}.

Definition set_book_table (w : World) (t : list Book.t) : World :=
  {| tape := tape w; rng_pos := rng_pos w; book_table := t;
     bookauthor_table := bookauthor_table w; isbn_lookups := isbn_lookups w;
     audit_log := audit_log w |}.


Definition set_isbn_lookups (w : World) (l : list string) : World :=
  {| tape := tape w; rng_pos := rng_pos w; book_table := book_table w;
     bookauthor_table := bookauthor_table w; isbn_lookups := l;
     audit_log := audit_log w |}.

Definition set_audit_log (w : World) (l : list LogEntry.t) : World :=
  {| tape := tape w; rng_pos := rng_pos w; book_table := book_table w;
     bookauthor_table := bookauthor_table w; isbn_lookups := isbn_lookups w;
     audit_log := l |}.

(** A computation that reads and changes the world and returns or raises;
    what it did to the world before raising stays done. *)
Definition M (A : Type) : Type := World -> result A * World.

Definition ret {A} (a : A) : M A := fun w => (Ok a, w).

Definition raise {A} (e : exn) : M A := fun w => (Raise e, w).

Definition bind {A B} (m : M A) (k : A -> M B) : M B :=
  fun w =>
    match m w with
    | (Ok a, w') => k a w'
    | (Raise e, w') => (Raise e, w')
    end.

Notation "'let*' x ':=' m 'in' k" := (bind m (fun x => k))
  (at level 10, x name, m at level 100, k at level 200).

(** [try: body  except Exception: handler] *)
Definition try_except {A} (body : M A) (handler : M A) : M A :=
  fun w =>
    match body w with
    | (Ok a, w') => (Ok a, w')
    | (Raise _, w') => handler w'
    end.

Definition gets {A} (f : World -> A) : M A := fun w => (Ok (f w), w).

(** *** random *)

Definition random_raw : M N :=
  fun w => (Ok (tape w (rng_pos w)), set_rng_pos w (S (rng_pos w))).

(** [random.choice(seq)] *)
Definition choice {A} (seq : list A) : M A :=
  match seq with
  | [] => raise IndexError
  | _ =>
      let* r := random_raw in
      match nth_error seq (N.to_nat r mod length seq) with
      | Some x => ret x
      | None => raise IndexError
      end
  end.

(** [random.randint(a, b)]: some integer of [a..b]. *)
Definition randint (a b : Z) : M Z :=
  if (b <? a)%Z then raise ValueError
  else let* r := random_raw in ret (a + Z.of_N r mod (b - a + 1))%Z.

(** *** Queries *)

(** Whether a row of the [Book] table carries the identifier. *)
Definition isbn_taken (w : World) (isbn13 : string) : bool :=
  existsb (fun b => String.eqb (Book.isbn b) isbn13) (book_table w).

(** [Book.objects.filter(isbn=isbn13).exists()] *)
Definition isbn_exists (isbn13 : string) : M bool :=
  fun w => (Ok (isbn_taken w isbn13), set_isbn_lookups w (isbn_lookups w ++ [isbn13])).

Fixpoint insert_sorted {A} (le : A -> A -> bool) (x : A) (l : list A) : list A :=
  match l with
  | [] => [x]
  | y :: r => if le x y then x :: l else y :: insert_sorted le x r
  end.

(** [order_by]: a stable sort, rows with equal keys keep their storage
    order. *)
Definition sort_by {A} (le : A -> A -> bool) (l : list A) : list A :=
  fold_right (insert_sorted le) [] l.

Definition order_le (x y : BookAuthor.t) : bool :=
  (BookAuthor.order x <=? BookAuthor.order y)%Z.

(** [BookAuthor.objects.filter(book=book).order_by('order')], which is also
    [book.bookauthor_set.order_by('order')]. *)
Definition bookauthors_by_order (w : World) (book : Book.t) : list BookAuthor.t :=
  sort_by order_le
    (List.filter (fun r => (BookAuthor.book r =? Book.pk book)%Z) (bookauthor_table w)).

(** [Author.Meta.ordering = ['last_name', 'first_name']], text compared by
    code point. *)
Definition author_le (x y : Author.t) : bool :=
  match String.compare (Author.last_name x) (Author.last_name y) with
  | Lt => true
  | Gt => false
  | Eq => String.leb (Author.first_name x) (Author.first_name y)
  end.

(** [book.authors.all()] *)
Definition book_authors (w : World) (book : Book.t) : list Author.t :=
  sort_by author_le
    (map BookAuthor.author
       (List.filter (fun r => (BookAuthor.book r =? Book.pk book)%Z) (bookauthor_table w))).

(** ** utils.py: resolver and generator *)

Definition _get_main_author_code_from_book (w : World) (book_instance : Book.t)
  : option string :=
  let qs := bookauthors_by_order w book_instance in
  let from_main :=
    match qs with
    | main :: _ =>
        match Author.nationality (BookAuthor.author main) with
        | Some n => Some (Nationality.code n)
        | None => None
        end
    | [] => None
    end in
  match from_main with
  | Some c => Some c
  | None =>
      match book_authors w book_instance with
      | first_author :: _ =>
          match Author.nationality first_author with
          | Some n => Some (Nationality.code n)
          | None => None
          end
      | [] => None
      end
  end.

(** The body of [for _ in range(max_tries)], with the [raise] after it. *)
Fixpoint generate_loop (nat3 : string) (tries : nat) : M string :=
  match tries with
  | O => raise RuntimeError
  | S k =>
      let* prefix := choice PREFIXES in
      let* n := randint 0 999999 in
      let pub_id := format_0d 6 n in
      let first12 := String.append prefix (String.append nat3 pub_id) in
      let* control := (fun w => (isbn13_check_digit first12, w)) in
      let isbn13 := String.append first12 control in
      let* taken := isbn_exists isbn13 in
      if taken then generate_loop nat3 k else ret isbn13
  end.

Definition generate_unique_isbn_for_nationality
  (nat_code : option string) (max_tries : Z) : M string :=
  let nat := _normalize_nat_code nat_code in
  let nat := if _is_allowed_nat_code nat then nat else "000"%string in
  generate_loop nat (Z.to_nat max_tries).

(** The default of [max_tries]. *)
Definition default_max_tries : Z := 5000.

Definition truthy (s : option string) : bool :=
  match s with
  | None | Some EmptyString => false
  | Some _ => true
  end.

Definition generate_unique_isbn_from_book
  (book_instance : Book.t) (nat_code_override : option string) : M string :=
  if truthy nat_code_override
  then generate_unique_isbn_for_nationality nat_code_override default_max_tries
  else
    (** [Some isbn] when the [try] block returned, [None] when control
        leaves it, by falling through or by an exception *)
    let* returned :=
      try_except
        (let* nat_from_author :=
           gets (fun w => _get_main_author_code_from_book w book_instance) in
         if truthy nat_from_author
         then let* isbn := generate_unique_isbn_for_nationality
                             nat_from_author default_max_tries in
              ret (Some isbn)
         else ret None)
        (ret None) in
    match returned with
    | Some isbn => ret isbn
    | None => generate_unique_isbn_for_nationality (Some "000"%string) default_max_tries
    end.

(** ** models.py: methods *)

(** [Book.generate_isbn] *)
Definition generate_isbn (self : Book.t) : M string :=
  generate_unique_isbn_from_book self None.







(** [book.save(update_fields=['isbn'])]: rewrites the column of the row
    with the book's key; Django raises [DatabaseError] when no row is hit. *)
Definition Book_save_isbn (self : Book.t) : M unit :=
  fun w =>
    if existsb (fun r => (Book.pk r =? Book.pk self)%Z) (book_table w)
    then (Ok tt,
          set_book_table w
            (map (fun r => if (Book.pk r =? Book.pk self)%Z
                           then Book.set_isbn r (Book.isbn self) else r)
               (book_table w)))
    else (Raise DatabaseError, w).

(** ** services.py *)

Definition dict_is_empty {V} (d : gmap string V) : bool := bool_decide (d = ∅).

(** [AuditLogService.log_book_update] *)
Definition log_book_update
  (user : string) (book : Book.t) (changes : gmap string (PyVal * PyVal)) : M unit :=
  if dict_is_empty changes then ret tt
  else
    fun w =>
      (Ok tt,
       set_audit_log w
         (audit_log w ++
            [ {| LogEntry.object_pk := str_of_int (Book.pk book);
                 LogEntry.object_repr := Book.str book;
                 LogEntry.action := UPDATE;
                 LogEntry.changes := changes;
                 LogEntry.actor := user |} ])).

(** ** admin.py: BookAdmin *)

Definition nonempty (s : string) : bool :=
  match s with
  | EmptyString => false
  | _ => true
  end.

(** [BookAdmin._update_book_isbn_if_needed]; the result is the [book]
    instance as the method leaves it. *)
Definition _update_book_isbn_if_needed (user : string) (book : Book.t) : M Book.t :=
  let* first_author_rel := gets (fun w => head (bookauthors_by_order w book)) in
  match first_author_rel with
  | None => ret book
  | Some rel =>
      let author := BookAuthor.author rel in
      let nat := Author.nationality author in
      let nat_code_current :=
        match nat with
        | Some n => _normalize_nat_code (Some (Nationality.code n))
        | None => EmptyString
        end in
      if negb (nonempty (Book.isbn book)) then
        let* new_isbn := generate_isbn book in
        if nonempty new_isbn then
          let book := Book.set_isbn book new_isbn in
          let* _ := Book_save_isbn book in
          ret book
        else ret book
      else
        let old_nat_code :=
          if (6 <=? String.length (Book.isbn book))%nat
          then slice 3 6 (Book.isbn book) else EmptyString in
        if negb (nonempty nat_code_current) || String.eqb nat_code_current old_nat_code
        then ret book
        else
          let* new_isbn := generate_isbn book in
          if nonempty new_isbn && negb (String.eqb new_isbn (Book.isbn book)) then
            let book := Book.set_isbn book new_isbn in
            let* _ := Book_save_isbn book in
            ret book
          else ret book
  end.

(** [x or None] for a string or [None]. *)
Definition str_or_none (x : option string) : PyVal :=
  match x with
  | Some (String c r) => VStr (String c r)
  | _ => VNone
  end.

(** [BookAdmin._snapshot_book_state] *)
Definition _snapshot_book_state (w : World) (book : Book.t) : gmap string PyVal :=
  let authors := map BookAuthor.author (bookauthors_by_order w book) in
  let authors_str :=
    match authors with
    | [] => VNone
    | _ => VStr (join ", " (map Author.str authors))
    end in
  <["id"%string := VInt (Book.pk book)]>
    (<["title"%string := VStr (Book.title book)]>
    (<["genre"%string := match Book.genre book with
                         | Some g => VStr (Genre.name g)
                         | None => VNone
                         end]>
    (<["cover"%string := str_or_none (Book.cover book)]>
    (<["adapted"%string := VBool (Book.adapted book)]>
    (<["film_title"%string := str_or_none (Book.film_title book)]>
    (<["isbn"%string := str_or_none (Some (Book.isbn book))]>
    (<["authors"%string := authors_str]> ∅))))))).

(** [d.get(k)] *)
Definition dict_get (d : gmap string PyVal) (k : string) : PyVal :=
  match d !! k with
  | Some v => v
  | None => VNone
  end.

(** [BookAdmin._diff_snapshots]; [before] is [None] when no snapshot was
    stored for the book. *)
Definition _diff_snapshots
  (before : option (gmap string PyVal)) (after : gmap string PyVal)
  : gmap string (PyVal * PyVal) :=
  match before with
  | None => ∅
  | Some before =>
      if dict_is_empty before then ∅
      else
        let any_changed :=
          existsb (fun k => py_ne (dict_get before k) (dict_get after k))
            (map fst (map_to_list after)) in
        if negb any_changed then ∅
        else map_imap (fun k _ => Some (dict_get before k, dict_get after k)) after
  end.

(** [type(obj).objects.get(pk=pk)], [None] for [DoesNotExist]. *)
Definition get_book (w : World) (pk : Z) : option Book.t :=
  find (fun r => (Book.pk r =? pk)%Z) (book_table w).

(** The snapshot [save_model] stores under the book's key before it saves
    a changed book. *)
Definition save_model_before (w : World) (obj : Book.t) : option (gmap string PyVal) :=
  match get_book w (Book.pk obj) with
  | Some before_obj => Some (_snapshot_book_state w before_obj)
  | None => None
  end.

(** [BookAdmin.save_formset] for [change = True], from the call of
    [_update_book_isbn_if_needed] on; [before] is what [save_model] stored. *)
Definition save_formset_change
  (user : string) (book : Book.t) (before : option (gmap string PyVal)) : M Book.t :=
  let* book := _update_book_isbn_if_needed user book in
  let* after_obj :=
    gets (fun w => match get_book w (Book.pk book) with
                   | Some r => r
                   | None => book
                   end) in
  let* after := gets (fun w => _snapshot_book_state w after_obj) in
  let changes :=
    match before with
    | Some b => if dict_is_empty b then ∅ else _diff_snapshots before after
    | None => ∅
    end in
  if dict_is_empty changes then ret book
  else let* _ := log_book_update user book changes in ret book.

(** ** admin.py: BookForm *)

(** The truth value of a Python value. *)
Definition py_truthy (v : PyVal) : bool :=
  match v with
  | VNone => false
  | VBool b => b
  | VInt n => negb (n =? 0)%Z
  | VStr s => nonempty s
  end.

(** What a form holds while it is cleaned: [cleaned_data] and the error
    lists per field. *)
Module Form.
Record t : Type :=
  { cleaned_data : gmap string PyVal;
    errors : gmap string (list string) }.
End Form.

(** [Form.add_error(field, message)] for a field of the form: the message
    is appended to the errors of the field, and the field is deleted from
    [cleaned_data]. *)
Definition add_error (field message : string) (f : Form.t) : Form.t :=
  {| Form.cleaned_data := delete field (Form.cleaned_data f);
     Form.errors :=
       <[field := match Form.errors f !! field with
                  | Some l => l ++ [message]
                  | None => [message]
                  end]> (Form.errors f) |}.

(** [BookForm.clean], from the dictionary [super().clean()] returned, which
    is the form's own [cleaned_data]; the [cleaned_data] of the result is
    the dictionary the method returns. *)
Definition BookForm_clean (f : Form.t) : Form.t :=
  let adapted := dict_get (Form.cleaned_data f) "adapted" in
  let film_title := dict_get (Form.cleaned_data f) "film_title" in
  let f :=
    if py_truthy adapted && negb (py_truthy film_title)
    then add_error "film_title" "Please enter a film title for adapted books." f
    else f in
  if negb (py_truthy adapted)
  then {| Form.cleaned_data := <["film_title"%string := VNone]> (Form.cleaned_data f);
          Form.errors := Form.errors f |}
  else f.

(** ** utils.py: serialization *)

(** [Author.name] *)
Definition Author_name (a : Author.t) : string :=
  String.append (Author.first_name a) (String.append " " (Author.last_name a)).

(** An instance of one of the models. *)
Inductive Related : Type :=
| RNationality (n : Nationality.t)
| RGenre (g : Genre.t)
| RAuthor (a : Author.t)
| RBook (b : Book.t).

(** An attribute of a model instance: a stored value, or a method with the
    value its call returns. *)
Inductive Attr : Type :=
| Data (v : PyVal)
| Method (returns : PyVal).

(** [hasattr] and [getattr] on the four attribute names
    [represent_related] asks for. *)
Definition getattr (obj : Related) (field : string) : option Attr :=
  match obj with
  | RNationality n =>
      if String.eqb field "name" then Some (Data (VStr (Nationality.name n)))
      else if String.eqb field "code" then Some (Data (VStr (Nationality.code n)))
      else None
  | RGenre g =>
      if String.eqb field "name" then Some (Data (VStr (Genre.name g))) else None
  | RAuthor a =>
      if String.eqb field "name" then Some (Method (VStr (Author_name a))) else None
  | RBook b =>
      if String.eqb field "title" then Some (Data (VStr (Book.title b))) else None
  end.

(** [str(obj)] *)
Definition Related_str (obj : Related) : string :=
  match obj with
  | RNationality n => Nationality.name n
  | RGenre g => Genre.name g
  | RAuthor a => Author.str a
  | RBook b => Book.str b
  end.

Fixpoint first_attr (obj : Related) (fields : list string) : PyVal :=
  match fields with
  | [] => VStr (Related_str obj)
  | field :: rest =>
      match getattr obj field with
      | Some (Method v) => v
      | Some (Data v) => v
      | None => first_attr obj rest
      end
  end.

(** [represent_related] *)
Definition represent_related (obj : option Related) : PyVal :=
  match obj with
  | None => VNone
  | Some o => first_attr o ["name"; "title"; "code"; "full_name"]%string
  end.

(** What the creation path can raise: the exceptions of the generator and
    of the database, [DoesNotExist] of a query and [TypeError]. *)
Inductive error : Type :=
| Exn (e : exn)
| DoesNotExist
| TypeError.

Inductive outcome (A : Type) : Type :=
| Done (a : A)
| Failed (e : error).
Arguments Done {A} a.
Arguments Failed {A} e.

(** [sep.join(l)] on Python values: [TypeError] unless all are strings. *)
Fixpoint strings_of (l : list PyVal) : option (list string) :=
  match l with
  | [] => Some []
  | VStr s :: r =>
      match strings_of r with
      | Some t => Some (s :: t)
      | None => None
      end
  | _ :: _ => None
  end.

(** [Book.objects.select_related('genre').prefetch_related('authors')
    .get(pk=pk)]: the genre key is not nullable, so the genre is joined
    with an inner join and a row whose genre is missing is not found. *)
Definition get_book_related (w : World) (pk : Z) : option Book.t :=
  match get_book w pk with
  | Some r =>
      match Book.genre r with
      | Some _ => Some r
      | None => None
      end
  | None => None
  end.

(** [serialize_model_instance] on a book.  The fields of the model are
    id, title, authors, genre, cover, adapted, film_title and isbn; the
    reverse relation of the memberships is skipped. *)
Definition serialize_model_instance (w : World) (instance : Book.t)
  : outcome (gmap string PyVal) :=
  match get_book_related w (Book.pk instance) with
  | None => Failed DoesNotExist
  | Some instance =>
      match strings_of (map (fun a => represent_related (Some (RAuthor a)))
                          (book_authors w instance)) with
      | None => Failed TypeError
      | Some names =>
          Done
            (<["id"%string := VInt (Book.pk instance)]>
            (<["title"%string := VStr (Book.title instance)]>
            (<["authors"%string := VStr (join ", " names)]>
            (<["genre"%string :=
                 represent_related
                   (match Book.genre instance with
                    | Some g => Some (RGenre g)
                    | None => None
                    end)]>
            (<["cover"%string := str_or_none (Book.cover instance)]>
            (<["adapted"%string := VBool (Book.adapted instance)]>
            (<["film_title"%string := match Book.film_title instance with
                                      | Some t => VStr t
                                      | None => VNone
                                      end]>
            (<["isbn"%string := VStr (Book.isbn instance)]> ∅))))))))
      end
  end.

(** ** services.py: creation *)

(** Code that can also fail with [DoesNotExist] or [TypeError]. *)
Definition C (A : Type) : Type := World -> outcome A * World.

Definition lift {A} (m : M A) : C A :=
  fun w =>
    match m w with
    | (Ok a, w') => (Done a, w')
    | (Raise e, w') => (Failed (Exn e), w')
    end.

Definition and_then {A B} (m : C A) (k : A -> C B) : C B :=
  fun w =>
    match m w with
    | (Done a, w') => k a w'
    | (Failed e, w') => (Failed e, w')
    end.

(** [AuditLogService.log_book_creation] *)
Definition log_book_creation (user : string) (book : Book.t) : C unit :=
  fun w =>
    match serialize_model_instance w book with
    | Failed e => (Failed e, w)
    | Done book_data =>
        let changes := (fun value => (VNone, value)) <$> book_data in
        (Done tt,
         set_audit_log w
           (audit_log w ++
              [ {| LogEntry.object_pk := str_of_int (Book.pk book);
                   LogEntry.object_repr := Book.str book;
                   LogEntry.action := CREATE;
                   LogEntry.changes := changes;
                   LogEntry.actor := user |} ]))
    end.

(** [BookAdmin._finalize_book_creation]; the result is the [book] instance
    as the method leaves it. *)
Definition _finalize_book_creation (user : string) (book : Book.t) : C Book.t :=
  fun w =>
    match head (bookauthors_by_order w book) with
    | Some _ =>
        and_then (lift (generate_isbn book)) (fun new_isbn =>
          let book := Book.set_isbn book new_isbn in
          and_then (lift (Book_save_isbn book)) (fun _ =>
            and_then (log_book_creation user book) (fun _ =>
              fun w => (Done book, w)))) w
    | None =>
        and_then (log_book_creation user book) (fun _ => fun w => (Done book, w)) w
    end.

(** ** Sample data *)
Module Sample.
Definition romania : Nationality.t := {| Nationality.name := "Romania"; Nationality.code := "600" |}.
Definition moldova : Nationality.t := {| Nationality.name := "Moldova"; Nationality.code := "601" |}.
Definition ion : Author.t :=
  {| Author.first_name := "Ion"; Author.last_name := "Pop"; Author.nationality := Some romania |}.
Definition ana : Author.t :=
  {| Author.first_name := "Ana"; Author.last_name := "Rusu"; Author.nationality := Some moldova |}.
Definition book1 : Book.t :=
  {| Book.pk := 1; Book.title := "My Book"; Book.genre := Some {| Genre.name := "Fiction" |};
     Book.cover := None; Book.adapted := false; Book.film_title := None;
     Book.isbn := "9786000000017" |}.
(** U+00B2, SUPERSCRIPT TWO: [isdigit] accepts it, [int] does not. *)
Definition superscript_two : string := String (ascii_of_N 178) EmptyString.
(** A book that holds the one identifier a constant tape of zeros
    draws for the segment ["600"]. *)
Definition book_taken : Book.t := Book.set_isbn book1 "9786000000004".
(** [book1] after an edit of its title only. *)
Definition book1_retitled : Book.t :=
  {| Book.pk := 1; Book.title := "Another Title"; Book.genre := Book.genre book1;
     Book.cover := None; Book.adapted := false; Book.film_title := None;
     Book.isbn := Book.isbn book1 |}.
Definition membership (k : Z) (a : Author.t) (o : Z) : BookAuthor.t :=
  {| BookAuthor.pk := Some k; BookAuthor.book := 1; BookAuthor.author := a; BookAuthor.order := o |}.
Definition world (t : nat -> N) (books : list Book.t) (rows : list BookAuthor.t) : World :=
  {| tape := t; rng_pos := 0; book_table := books; bookauthor_table := rows;
     isbn_lookups := []; audit_log := [] |}.
End Sample.

(** ** Reference definitions used in the statements *)

(** The digit sum weighted 1 at even and 3 at odd positions, positions
    counted from [i]. *)
Fixpoint weighted_sum_from (i : nat) (s : string) : Z :=
  match s with
  | EmptyString => 0
  | String c r =>
      (digit_value c * (if Nat.even i then 1 else 3) + weighted_sum_from (S i) r)%Z
  end.

Definition weighted_sum (s : string) : Z := weighted_sum_from 0 s.

(** The digit characters of the input, in order. *)
Definition digits_of (raw : string) : string := str_filter isdigit_char raw.

(** The first three of three or more digit characters, fewer padded on
    the left to width three. *)
Definition fit3 (digits : string) : string :=
  if (3 <=? String.length digits)%nat then str_take 3 digits
  else rjust 3 "0"%char digits.

(** The prefix picked by a raw random value. *)
Definition prefix_of (r : N) : string :=
  nth (N.to_nat r mod length PREFIXES) PREFIXES EmptyString.

(** The publication segment picked by a raw random value. *)
Definition pub_of (r : N) : string := format_0d 6 (Z.of_N r mod 1000000).

(** The candidate drawn from the random values at positions [p] and
    [p + 1] of the tape, for the classification segment [nat3]. *)
Definition candidate (t : nat -> N) (p : nat) (nat3 : string) : string :=
  let first12 := String.append (prefix_of (t p)) (String.append nat3 (pub_of (t (S p)))) in
  String.append first12
    (String (digit_char ((10 - weighted_sum first12 mod 10) mod 10)) EmptyString).

(** The world after one draw that looked [c] up. *)
Definition after_draw (w : World) (c : string) : World :=
  set_isbn_lookups (set_rng_pos w (S (S (rng_pos w)))) (isbn_lookups w ++ [c]).

(** The classification segment the generator embeds for an input code. *)
Definition segment_for (nat_code : option string) : string :=
  if _is_allowed_nat_code (_normalize_nat_code nat_code)
  then _normalize_nat_code nat_code else "000"%string.

(** The second world has the tables, the audit log and the random tape of
    the first: what ran in between only drew numbers and looked
    identifiers up. *)
Definition same_tables (w w' : World) : Prop :=
  tape w' = tape w
  /\ book_table w' = book_table w
  /\ bookauthor_table w' = bookauthor_table w
  /\ audit_log w' = audit_log w.

(** The primary contributor's membership: the first row in ascending
    [order]. *)
Definition primary (w : World) (book : Book.t) : option BookAuthor.t :=
  head (bookauthors_by_order w book).

(** The classification segment embedded in an identifier, [isbn[3:6]]. *)
Definition embedded_segment (isbn : string) : string :=
  if (6 <=? String.length isbn)%nat then slice 3 6 isbn else EmptyString.

(** The world after the identifier [i] was written to the row of [book]. *)
Definition store_isbn (w : World) (book : Book.t) (i : string) : World :=
  set_book_table w
    (map (fun r => if (Book.pk r =? Book.pk book)%Z then Book.set_isbn r i else r)
       (book_table w)).




(** The message of the film title rule of [BookForm.clean]. *)
Definition film_title_message : string := "Please enter a film title for adapted books.".

(** The keys of every snapshot. *)
Definition snapshot_fields : gset string :=
  {[ "id"; "title"; "genre"; "cover"; "adapted"; "film_title"; "isbn"; "authors" ]}%string.

(** * Properties *)

(** ** Strings *)
Section Strings.

Lemma length_append (s t : string) :
  String.length (String.append s t) = (String.length s + String.length t)%nat.
Proof. induction s as [|c s IH]; simpl; [reflexivity | now rewrite IH]. Qed.

Lemma append_assoc (s t u : string) :
  String.append (String.append s t) u = String.append s (String.append t u).
Proof.
  induction s as [|c s IH]; [reflexivity|].
  change (String c (String.append (String.append s t) u)
          = String c (String.append s (String.append t u))).
  now f_equal.
Qed.

Lemma forallb_append p (s t : string) :
  str_forallb p (String.append s t) = str_forallb p s && str_forallb p t.
Proof.
  induction s as [|c s IH]; simpl; [reflexivity|].
  rewrite IH. now rewrite andb_assoc.
Qed.

Lemma forallb_impl (p q : ascii -> bool) (s : string) :
  (forall c, p c = true -> q c = true) ->
  str_forallb p s = true -> str_forallb q s = true.
Proof.
  intros Hpq. induction s as [|c s IH]; simpl; [reflexivity|].
  intros [Hc Hs]%andb_true_iff. rewrite (Hpq _ Hc). simpl. auto.
Qed.

Lemma forallb_filter p (s : string) : str_forallb p (str_filter p s) = true.
Proof.
  induction s as [|c s IH]; simpl; [reflexivity|].
  destruct (p c) eqn:E; simpl; [rewrite E|]; assumption.
Qed.

Lemma forallb_take p n (s : string) :
  str_forallb p s = true -> str_forallb p (str_take n s) = true.
Proof.
  revert s. induction n as [|n IH]; intros [|c s]; simpl; try reflexivity.
  intros [Hc Hs]%andb_true_iff. rewrite Hc. simpl. auto.
Qed.

Lemma forallb_drop p n (s : string) :
  str_forallb p s = true -> str_forallb p (str_drop n s) = true.
Proof.
  revert s. induction n as [|n IH]; intros [|c s]; simpl; try reflexivity; auto.
  intros [Hc Hs]%andb_true_iff. auto.
Qed.

Lemma forallb_repeat p c n : p c = true -> str_forallb p (str_repeat c n) = true.
Proof. intros Hc. induction n; simpl; [reflexivity | now rewrite Hc]. Qed.

Lemma length_repeat c n : String.length (str_repeat c n) = n.
Proof. induction n; simpl; congruence. Qed.

Lemma length_take n (s : string) :
  (n <= String.length s)%nat -> String.length (str_take n s) = n.
Proof.
  revert s. induction n as [|n IH]; intros [|c s]; simpl; try reflexivity; try lia.
  intros H. rewrite IH; [reflexivity | lia].
Qed.

Lemma length_rjust w c (s : string) :
  (String.length s <= w)%nat -> String.length (rjust w c s) = w.
Proof. intros H. unfold rjust. rewrite length_append, length_repeat. lia. Qed.

Lemma take_append (s t : string) : str_take (String.length s) (String.append s t) = s.
Proof. induction s as [|c s IH]; simpl; [now destruct t | now rewrite IH]. Qed.

Lemma drop_append (s t : string) : str_drop (String.length s) (String.append s t) = t.
Proof. induction s as [|c s IH]; simpl; [now destruct t | assumption]. Qed.

Lemma take_all (s : string) : str_take (String.length s) s = s.
Proof. induction s as [|c s IH]; simpl; congruence. Qed.

(** The slice [s[i:j]] of a string that has the segment [m] between a
    prefix of [i] characters and the rest. *)
Lemma slice_segment (p m r : string) :
  slice (String.length p) (String.length p + String.length m)
    (String.append p (String.append m r)) = m.
Proof.
  unfold slice. rewrite drop_append.
  replace (String.length p + String.length m - String.length p)%nat
    with (String.length m) by lia.
  apply take_append.
Qed.

Lemma space_not_digit c : isspace_char c = true -> isdigit_char c = false.
Proof.
  destruct c as [b0 b1 b2 b3 b4 b5 b6 b7].
  destruct b0, b1, b2, b3, b4, b5, b6, b7; vm_compute; congruence.
Qed.

Lemma ascii_digit_isdigit c : is_ascii_digit c = true -> isdigit_char c = true.
Proof. unfold isdigit_char. now intros ->. Qed.

Lemma filter_lstrip (s : string) :
  str_filter isdigit_char (lstrip s) = str_filter isdigit_char s.
Proof.
  induction s as [|c s IH]; simpl; [reflexivity|].
  destruct (isspace_char c) eqn:E; [|reflexivity].
  now rewrite (space_not_digit _ E).
Qed.

Lemma filter_rstrip (s : string) :
  str_filter isdigit_char (rstrip s) = str_filter isdigit_char s.
Proof.
  induction s as [|c s IH]; simpl; [reflexivity|].
  destruct (rstrip s) as [|c' r'] eqn:Er.
  - simpl in IH. rewrite <- IH.
    destruct (isspace_char c) eqn:E; simpl.
    + now rewrite (space_not_digit _ E).
    + reflexivity.
  - simpl. simpl in IH. now rewrite IH.
Qed.

(** Stripping blanks does not change which digit characters are kept. *)
Lemma filter_strip (s : string) : digits_of (strip s) = digits_of s.
Proof. unfold digits_of, strip. now rewrite filter_rstrip, filter_lstrip. Qed.

Lemma digit_value_range c :
  is_ascii_digit c = true -> (0 <= digit_value c <= 9)%Z.
Proof.
  unfold is_ascii_digit, digit_value.
  intros [H1 H2]%andb_true_iff.
  apply N.leb_le in H1. apply N.leb_le in H2. lia.
Qed.

Lemma small_digit (d : Z) :
  (0 <= d <= 9)%Z ->
  d = 0%Z \/ d = 1%Z \/ d = 2%Z \/ d = 3%Z \/ d = 4%Z \/
  d = 5%Z \/ d = 6%Z \/ d = 7%Z \/ d = 8%Z \/ d = 9%Z.
Proof. lia. Qed.

Lemma digit_char_ok (d : Z) :
  (0 <= d <= 9)%Z ->
  is_ascii_digit (digit_char d) = true /\ digit_value (digit_char d) = d.
Proof.
  intros H. destruct (small_digit d H) as [E|[E|[E|[E|[E|[E|[E|[E|[E|E]]]]]]]]];
    subst d; split; reflexivity.
Qed.

Lemma str_of_digit (d : Z) :
  (0 <= d <= 9)%Z -> str_of_int d = String (digit_char d) EmptyString.
Proof.
  intros H. destruct (small_digit d H) as [E|[E|[E|[E|[E|[E|[E|[E|[E|E]]]]]]]]];
    subst d; reflexivity.
Qed.

Lemma int_char c :
  int (String c EmptyString)
  = if is_ascii_digit c then Ok (digit_value c) else Raise ValueError.
Proof.
  unfold int, ascii_digits. simpl. rewrite andb_true_r.
  destruct (is_ascii_digit c); [|reflexivity].
  f_equal; lia.
Qed.

End Strings.

(** ** The check digit *)
Section CheckDigit.

Lemma weighted_sum_append i (s t : string) :
  weighted_sum_from i (String.append s t)
  = (weighted_sum_from i s + weighted_sum_from (i + String.length s) t)%Z.
Proof.
  revert i. induction s as [|c s IH]; intros i; simpl.
  - now rewrite Nat.add_0_r.
  - rewrite IH. replace (S i + String.length s)%nat
      with (i + S (String.length s))%nat by lia. lia.
Qed.

Lemma even_mod2 i : (Nat.modulo i 2 =? 0)%nat = Nat.even i.
Proof.
  destruct (Nat.even i) eqn:E.
  - apply Nat.even_spec in E. destruct E as [k ->].
    apply Nat.eqb_eq. rewrite Nat.mul_comm. apply Nat.Div0.mod_mul.
  - apply Nat.eqb_neq. intros H.
    apply Nat.Div0.mod_divides in H. destruct H as [k ->].
    rewrite Nat.even_mul in E. discriminate.
Qed.

Lemma check_digit_loop_step i total c (r : string) :
  check_digit_loop i total (String c r)
  = if is_ascii_digit c
    then check_digit_loop (S i)
           (total + digit_value c * (if Nat.even i then 1 else 3))%Z r
    else Raise ValueError.
Proof.
  change (check_digit_loop i total (String c r))
    with (match int (String c EmptyString) with
          | Ok d => check_digit_loop (S i)
                      (total + d * (if (Nat.modulo i 2 =? 0)%nat then 1 else 3))%Z r
          | Raise e => Raise e
          end).
  rewrite int_char, even_mod2. now destruct (is_ascii_digit c).
Qed.

(** On ASCII digits the loop of the code adds up the weighted sum. *)
Lemma check_digit_loop_digits i total (s : string) :
  ascii_digits s = true ->
  check_digit_loop i total s = Ok (total + weighted_sum_from i s)%Z.
Proof.
  revert i total. induction s as [|c s IH]; intros i total.
  - intros _. simpl. f_equal. lia.
  - intros [Hc Hs]%andb_true_iff.
    rewrite check_digit_loop_step, Hc, IH by exact Hs.
    cbn [weighted_sum_from]. f_equal. lia.
Qed.


Lemma weighted_sum_range i (s : string) :
  ascii_digits s = true -> (0 <= weighted_sum_from i s)%Z.
Proof.
  revert i. induction s as [|c s IH]; intros i; simpl; [lia|].
  intros [Hc Hs]%andb_true_iff.
  pose proof (digit_value_range c Hc). pose proof (IH (S i) Hs).
  destruct (Nat.even i); lia.
Qed.

Lemma isdigit_of_ascii_digits (s : string) :
  ascii_digits s = true -> s <> EmptyString -> isdigit s = true.
Proof.
  intros H Hne. destruct s as [|c s]; [congruence|].
  unfold isdigit. revert H. apply forallb_impl, ascii_digit_isdigit.
Qed.

(** What the code returns on twelve ASCII digits. *)
Lemma isbn13_check_digit_digits (s : string) :
  String.length s = 12%nat -> ascii_digits s = true ->
  isbn13_check_digit s
  = Ok (String (digit_char ((10 - weighted_sum s mod 10) mod 10)) EmptyString).
Proof.
  intros Hl Hd. unfold isbn13_check_digit.
  rewrite Hl. simpl.
  rewrite isdigit_of_ascii_digits; [simpl | assumption | intros ->; discriminate].
  rewrite check_digit_loop_digits by assumption.
  rewrite Z.add_0_l. fold (weighted_sum s).
  rewrite str_of_digit; [reflexivity|].
  pose proof (Z.mod_pos_bound (10 - weighted_sum s mod 10) 10). lia.
Qed.

End CheckDigit.



(** ** The classification code *)
Section Normalize.

(** The code, without the detour through [strip]. *)
Lemma normalize_unfold (raw : string) :
  _normalize_nat_code (Some raw)
  = if nonempty (digits_of raw) then fit3 (digits_of raw) else "000"%string.
Proof.
  destruct raw as [|c raw]; [reflexivity|].
  unfold _normalize_nat_code.
  change (str_filter isdigit_char (strip (String c raw)))
    with (digits_of (strip (String c raw))).
  rewrite filter_strip. now destruct (digits_of (String c raw)).
Qed.

Lemma fit3_length (digits : string) : String.length (fit3 digits) = 3%nat.
Proof.
  unfold fit3. destruct (3 <=? String.length digits)%nat eqn:El.
  - apply Nat.leb_le in El. now apply length_take.
  - apply Nat.leb_gt in El. apply length_rjust. lia.
Qed.

Lemma fit3_forallb (p : ascii -> bool) (digits : string) :
  p "0"%char = true -> str_forallb p digits = true ->
  str_forallb p (fit3 digits) = true.
Proof.
  intros H0 Hd. unfold fit3. destruct (3 <=? String.length digits)%nat.
  - now apply forallb_take.
  - unfold rjust. rewrite forallb_append, Hd, forallb_repeat by exact H0.
    reflexivity.
Qed.

Lemma normalize_length (nat_code : option string) :
  String.length (_normalize_nat_code nat_code) = 3%nat.
Proof.
  destruct nat_code as [raw|]; [|reflexivity].
  rewrite normalize_unfold.
  destruct (nonempty (digits_of raw)); [apply fit3_length | reflexivity].
Qed.

Lemma normalize_forallb (p : ascii -> bool) (nat_code : option string) :
  p "0"%char = true ->
  (forall raw, nat_code = Some raw -> str_forallb p (digits_of raw) = true) ->
  str_forallb p (_normalize_nat_code nat_code) = true.
Proof.
  intros H0 Hd. destruct nat_code as [raw|]; [|simpl; now rewrite H0].
  specialize (Hd raw eq_refl). rewrite normalize_unfold.
  destruct (nonempty (digits_of raw)); [now apply fit3_forallb|].
  simpl. now rewrite H0.
Qed.

End Normalize.

(** What [_normalize_nat_code] returns on every input: three characters,
    each one a digit for [str.isdigit]: ["000"] when the input is absent
    or empty or keeps no digit character, the first three digit characters
    when three or more remain, one or two of them padded on the left with
    ["0"] otherwise.  The three characters are ASCII digits whenever the
    digit characters of the input are. *)
Lemma normalize_nat_code_spec (nat_code : option string) :
  let digits := match nat_code with Some raw => digits_of raw | None => EmptyString end in
  let code3 := _normalize_nat_code nat_code in
  String.length code3 = 3%nat
  /\ str_forallb isdigit_char code3 = true
  /\ (digits = EmptyString -> code3 = "000"%string)
  /\ ((3 <= String.length digits)%nat -> code3 = str_take 3 digits)
  /\ ((1 <= String.length digits <= 2)%nat -> code3 = rjust 3 "0"%char digits)
  /\ (ascii_digits digits = true -> ascii_digits code3 = true).
Proof.
  intros digits code3. subst code3.
  split; [apply normalize_length|].
  split.
  { apply normalize_forallb; [reflexivity|]. intros raw _. apply forallb_filter. }
  assert (Hcases :
    _normalize_nat_code nat_code
    = if nonempty digits then fit3 digits else "000"%string).
  { subst digits. destruct nat_code as [raw|]; [apply normalize_unfold | reflexivity]. }
  repeat split.
  - intros E. now rewrite Hcases, E.
  - intros Hl. rewrite Hcases. destruct digits as [|c d]; [simpl in Hl; lia|].
    unfold fit3. apply Nat.leb_le in Hl. now rewrite Hl.
  - intros [Hl1 Hl2]. rewrite Hcases. destruct digits as [|c d]; [simpl in Hl1; lia|].
    assert (E : (3 <=? String.length (String c d))%nat = false) by (apply Nat.leb_gt; lia).
    unfold fit3. now rewrite E.
  - intros Hd. apply normalize_forallb; [reflexivity|].
    intros raw ->. exact Hd.
Qed.

Lemma normalize_nat_code_spec_witness :
  _normalize_nat_code (Some " RO-6 "%string) = "006"%string
  /\ _normalize_nat_code (Some "6012"%string) = "601"%string
  /\ ascii_digits (_normalize_nat_code (Some " RO-6 "%string)) = true.
Proof.
  destruct (normalize_nat_code_spec (Some " RO-6 "%string)) as (_ & _ & _ & _ & H12 & Hd).
  destruct (normalize_nat_code_spec (Some "6012"%string)) as (_ & _ & _ & H3 & _).
  split; [apply H12; simpl; lia|].
  split; [apply H3; simpl; lia|].
  apply Hd. reflexivity.
Defined.

(** C6 fails on the code: a superscript two is a digit for [str.isdigit],
    so [_normalize_nat_code] keeps it and pads it, and what it returns is
    not three ASCII digits. *)
Theorem normalize_nat_code_not_ascii :
  _normalize_nat_code (Some Sample.superscript_two)
  = String.append "00" Sample.superscript_two
  /\ ascii_digits (_normalize_nat_code (Some Sample.superscript_two)) = false.
Proof. split; reflexivity. Qed.

(** ** Decimal numerals *)
Section Decimal.

Lemma dec_digits_ascii fuel (n : Z) (acc : string) :
  ascii_digits acc = true -> ascii_digits (dec_digits fuel n acc) = true.
Proof.
  revert n acc. induction fuel as [|f IH]; intros n acc Hacc; simpl; [assumption|].
  assert (Hd : ascii_digits (String (digit_char (n mod 10)) acc) = true).
  { unfold ascii_digits. simpl. fold (ascii_digits acc). rewrite Hacc, andb_true_r.
    apply digit_char_ok. pose proof (Z.mod_pos_bound n 10). lia. }
  destruct (n / 10 =? 0)%Z; [assumption | now apply IH].
Qed.

Lemma dec_digits_length (k : nat) : forall fuel (n : Z) (acc : string),
  (0 <= n < 10 ^ Z.of_nat (S k))%Z ->
  (String.length (dec_digits fuel n acc) <= S k + String.length acc)%nat.
Proof.
  induction k as [|k IH]; intros fuel n acc Hn.
  - destruct fuel as [|f]; simpl; [lia|].
    assert (n / 10 = 0)%Z as -> by (apply Z.div_small; simpl in Hn; lia).
    simpl. lia.
  - destruct fuel as [|f]; simpl; [lia|].
    destruct (n / 10 =? 0)%Z; [simpl; lia|].
    assert (0 <= n / 10 < 10 ^ Z.of_nat (S k))%Z as Hq.
    { split; [apply Z.div_pos; lia|].
      apply Z.div_lt_upper_bound; [lia|].
      rewrite <- Z.pow_succ_r by lia.
      replace (Z.succ (Z.of_nat (S k))) with (Z.of_nat (S (S k))) by lia. lia. }
    pose proof (IH f (n / 10)%Z (String (digit_char (n mod 10)) acc) Hq) as H.
    simpl in H. lia.
Qed.

(** [f"{n:06d}"] of a number below one million: six ASCII digits. *)
Lemma format_06d (n : Z) :
  (0 <= n < 1000000)%Z ->
  String.length (format_0d 6 n) = 6%nat /\ ascii_digits (format_0d 6 n) = true.
Proof.
  intros Hn. unfold format_0d.
  assert ((n <? 0)%Z = false) as -> by (apply Z.ltb_ge; lia).
  split.
  - apply length_rjust. unfold dec_of_nonneg.
    pose proof (dec_digits_length 5 (S (Z.to_nat (Z.log2 n))) n EmptyString Hn) as H.
    rewrite Nat.add_0_r in H. exact H.
  - unfold rjust, ascii_digits. rewrite forallb_append, forallb_repeat by reflexivity.
    apply dec_digits_ascii. reflexivity.
Qed.

Lemma pub_of_ok (r : N) :
  String.length (pub_of r) = 6%nat /\ ascii_digits (pub_of r) = true.
Proof. apply format_06d. apply Z.mod_pos_bound. lia. Qed.

Lemma prefix_of_cases (r : N) :
  prefix_of r = "978"%string \/ prefix_of r = "979"%string.
Proof.
  unfold prefix_of. simpl length.
  pose proof (Nat.mod_upper_bound (N.to_nat r) 2) as H.
  destruct (N.to_nat r mod 2)%nat as [|[|m]]; [now left | now right | lia].
Qed.

End Decimal.

(** ** The generator *)
Section Generator.

Lemma int_ok (s : string) (n : Z) : int s = Ok n -> ascii_digits s = true.
Proof.
  unfold int. destruct s as [|c r]; [discriminate|].
  destruct (ascii_digits (String c r)); [reflexivity | discriminate].
Qed.

Lemma allowed_ascii (code3 : string) :
  _is_allowed_nat_code code3 = true -> ascii_digits code3 = true.
Proof.
  unfold _is_allowed_nat_code.
  destruct (String.eqb code3 "000") eqn:E0.
  { apply String.eqb_eq in E0. now subst. }
  destruct (String.eqb code3 "111") eqn:E1.
  { apply String.eqb_eq in E1. now subst. }
  simpl. destruct (int code3) as [n|e] eqn:Ei; [|discriminate].
  intros _. now apply int_ok in Ei.
Qed.

Lemma segment_for_ok (nat_code : option string) :
  String.length (segment_for nat_code) = 3%nat
  /\ ascii_digits (segment_for nat_code) = true.
Proof.
  unfold segment_for.
  destruct (_is_allowed_nat_code (_normalize_nat_code nat_code)) eqn:E.
  - split; [apply normalize_length | now apply allowed_ascii].
  - split; reflexivity.
Qed.

Lemma choice_PREFIXES (w : World) :
  choice PREFIXES w
  = (Ok (prefix_of (tape w (rng_pos w))), set_rng_pos w (S (rng_pos w))).
Proof.
  unfold choice, bind, random_raw, prefix_of, PREFIXES.
  set (m := (N.to_nat (tape w (rng_pos w)) mod length ["978"%string; "979"%string])%nat).
  assert (Hm : (m < 2)%nat) by (subst m; apply Nat.mod_upper_bound; simpl; lia).
  clearbody m. destruct m as [|[|m]]; [reflexivity | reflexivity | lia].
Qed.

Lemma randint_pub (w : World) :
  randint 0 999999 w
  = (Ok (Z.of_N (tape w (rng_pos w)) mod 1000000)%Z, set_rng_pos w (S (rng_pos w))).
Proof. reflexivity. Qed.

Section Segment.
Variable nat3 : string.
Hypothesis nat3_length : String.length nat3 = 3%nat.
Hypothesis nat3_digits : ascii_digits nat3 = true.

Lemma first12_ok (r1 r2 : N) :
  let first12 := String.append (prefix_of r1) (String.append nat3 (pub_of r2)) in
  String.length first12 = 12%nat /\ ascii_digits first12 = true.
Proof.
  intros first12. subst first12.
  destruct (pub_of_ok r2) as [Hl Hd].
  unfold ascii_digits. rewrite !length_append, !forallb_append.
  fold (ascii_digits nat3) (ascii_digits (pub_of r2)).
  rewrite nat3_length, nat3_digits, Hl, Hd.
  destruct (prefix_of_cases r1) as [-> | ->]; split; reflexivity.
Qed.

(** One turn of the loop: draw, assemble, look up. *)
Lemma generate_loop_step (k : nat) (w : World) :
  generate_loop nat3 (S k) w
  = let c := candidate (tape w) (rng_pos w) nat3 in
    if isbn_taken w c then generate_loop nat3 k (after_draw w c)
    else (Ok c, after_draw w c).
Proof.
  cbn [generate_loop]. unfold bind at 1. rewrite choice_PREFIXES.
  unfold bind at 1. rewrite randint_pub. cbn [tape rng_pos set_rng_pos].
  fold (pub_of (tape w (S (rng_pos w)))).
  destruct (first12_ok (tape w (rng_pos w)) (tape w (S (rng_pos w)))) as [Hl Hd].
  unfold bind at 1. rewrite (isbn13_check_digit_digits _ Hl Hd).
  unfold bind at 1. unfold isbn_exists, candidate, after_draw, isbn_taken.
  cbn [book_table set_rng_pos]. cbv zeta.
  destruct (existsb _ (book_table w)); reflexivity.
Qed.

Lemma candidate_shape (t : nat -> N) (p : nat) :
  exists prefix pub check,
    candidate t p nat3
    = String.append prefix (String.append nat3 (String.append pub check))
    /\ (prefix = "978"%string \/ prefix = "979"%string)
    /\ String.length pub = 6%nat
    /\ isbn13_check_digit (String.append prefix (String.append nat3 pub)) = Ok check
    /\ String.length check = 1%nat
    /\ String.length (candidate t p nat3) = 13%nat
    /\ ascii_digits (candidate t p nat3) = true.
Proof.
  destruct (first12_ok (t p) (t (S p))) as [Hl Hd].
  destruct (pub_of_ok (t (S p))) as [Hpl Hpd].
  set (first12 := String.append (prefix_of (t p)) (String.append nat3 (pub_of (t (S p))))) in *.
  set (d := ((10 - weighted_sum first12 mod 10) mod 10)%Z).
  assert (Hdr : (0 <= d <= 9)%Z).
  { subst d. pose proof (Z.mod_pos_bound (10 - weighted_sum first12 mod 10) 10). lia. }
  exists (prefix_of (t p)), (pub_of (t (S p))), (String (digit_char d) EmptyString).
  assert (Hc : candidate t p nat3
               = String.append first12 (String (digit_char d) EmptyString))
    by reflexivity.
  repeat split.
  - rewrite Hc. subst first12. now rewrite !append_assoc.
  - apply prefix_of_cases.
  - exact Hpl.
  - fold first12. now apply isbn13_check_digit_digits.
  - rewrite Hc, length_append, Hl. reflexivity.
  - rewrite Hc. unfold ascii_digits. rewrite forallb_append.
    fold (ascii_digits first12). rewrite Hd. simpl.
    rewrite andb_true_r. now apply digit_char_ok.
Qed.

(** Every identifier the loop returns is a candidate that was looked up
    and found free; the tables are only read. *)
Lemma generate_loop_returns (k : nat) : forall (w w' : World) (isbn : string),
  generate_loop nat3 k w = (Ok isbn, w') ->
  (exists p, isbn = candidate (tape w) p nat3)
  /\ isbn_taken w isbn = false
  /\ last (isbn_lookups w') = Some isbn
  /\ book_table w' = book_table w
  /\ bookauthor_table w' = bookauthor_table w
  /\ audit_log w' = audit_log w
  /\ tape w' = tape w.
Proof.
  induction k as [|k IH]; intros w w' isbn H.
  - discriminate H.
  - rewrite generate_loop_step in H. cbv zeta in H.
    destruct (isbn_taken w (candidate (tape w) (rng_pos w) nat3)) eqn:Et.
    + apply IH in H. destruct H as ((p & Hp) & Hfree & Hlast & Hb & Hba & Ha & Ht).
      repeat split; try assumption. now exists p.
    + injection H as <- <-. repeat split; try reflexivity.
      * now exists (rng_pos w).
      * exact Et.
      * unfold after_draw. cbn [isbn_lookups set_isbn_lookups]. apply last_snoc.
Qed.

(** When every candidate drawn is already taken, the loop makes
    exactly [k] draws, one lookup each, and raises. *)
Lemma generate_loop_exhausts (k : nat) : forall (w : World),
  (forall i, (i < k)%nat ->
             isbn_taken w (candidate (tape w) (rng_pos w + 2 * i) nat3) = true) ->
  exists w',
    generate_loop nat3 k w = (Raise RuntimeError, w')
    /\ rng_pos w' = (rng_pos w + 2 * k)%nat
    /\ isbn_lookups w'
       = isbn_lookups w
         ++ map (fun i => candidate (tape w) (rng_pos w + 2 * i) nat3) (seq 0 k)
    /\ book_table w' = book_table w
    /\ bookauthor_table w' = bookauthor_table w
    /\ audit_log w' = audit_log w
    /\ tape w' = tape w.
Proof.
  induction k as [|k IH]; intros w Hall.
  - exists w. simpl. rewrite app_nil_r, Nat.add_0_r. repeat split; reflexivity.
  - rewrite generate_loop_step. cbv zeta.
    pose proof (Hall 0%nat ltac:(lia)) as H0.
    rewrite Nat.mul_0_r, Nat.add_0_r in H0. rewrite H0.
    destruct (IH (after_draw w (candidate (tape w) (rng_pos w) nat3)))
      as (w' & Hrun & Hpos & Hlook & Hb & Hba & Ha & Ht).
    { intros i Hi. unfold after_draw, isbn_taken in *.
      cbn [tape rng_pos book_table set_rng_pos set_isbn_lookups].
      replace (S (S (rng_pos w)) + 2 * i)%nat with (rng_pos w + 2 * S i)%nat by lia.
      apply Hall. lia. }
    exists w'. split; [exact Hrun|].
    unfold after_draw in *.
    cbn [tape rng_pos book_table bookauthor_table audit_log isbn_lookups
           set_rng_pos set_isbn_lookups] in *.
    repeat split; try assumption; [lia|].
    rewrite Hlook, <- app_assoc. f_equal.
    cbn [seq map app]. rewrite Nat.mul_0_r, Nat.add_0_r. f_equal.
    rewrite <- seq_shift, map_map. apply map_ext. intros i.
    f_equal. lia.
Qed.

End Segment.

End Generator.

(** ** What a run of the generator leaves behind *)
Section GeneratorFrame.

Lemma same_tables_refl (w : World) : same_tables w w.
Proof. repeat split. Qed.

Lemma same_tables_trans (w1 w2 w3 : World) :
  same_tables w1 w2 -> same_tables w2 w3 -> same_tables w1 w3.
Proof.
  intros (A1 & A2 & A3 & A4) (B1 & B2 & B3 & B4).
  repeat split; congruence.
Qed.

Lemma same_tables_after_draw (w : World) (c : string) :
  same_tables w (after_draw w c).
Proof. repeat split. Qed.

Lemma generate_loop_outcome (nat3 : string) :
  String.length nat3 = 3%nat -> ascii_digits nat3 = true ->
  forall (k : nat) (w : World),
    same_tables w (snd (generate_loop nat3 k w))
    /\ (rng_pos w <= rng_pos (snd (generate_loop nat3 k w)))%nat
    /\ ((1 <= k)%nat -> (rng_pos w + 2 <= rng_pos (snd (generate_loop nat3 k w)))%nat)
    /\ (forall e, fst (generate_loop nat3 k w) = Raise e -> e = RuntimeError).
Proof.
  intros Hl Hd. induction k as [|k IH]; intros w.
  - simpl. repeat split; try lia. intros e [= <-]. reflexivity.
  - rewrite (generate_loop_step nat3 Hl Hd). cbv zeta.
    set (c := candidate (tape w) (rng_pos w) nat3).
    destruct (isbn_taken w c).
    + destruct (IH (after_draw w c)) as (Hs & Hp & _ & He).
      change (rng_pos (after_draw w c)) with (S (S (rng_pos w))) in Hp.
      repeat split; try apply Hs; try lia. exact He.
    + simpl. repeat split; try lia. intros e [=].
Qed.

Lemma generate_outcome (nat_code : option string) (max_tries : Z) (w : World) :
  same_tables w (snd (generate_unique_isbn_for_nationality nat_code max_tries w))
  /\ (rng_pos w
      <= rng_pos (snd (generate_unique_isbn_for_nationality nat_code max_tries w)))%nat
  /\ ((1 <= max_tries)%Z ->
      (rng_pos w + 2
       <= rng_pos (snd (generate_unique_isbn_for_nationality nat_code max_tries w)))%nat)
  /\ (forall e,
        fst (generate_unique_isbn_for_nationality nat_code max_tries w) = Raise e ->
        e = RuntimeError).
Proof.
  destruct (segment_for_ok nat_code) as [Hl Hd].
  destruct (generate_loop_outcome _ Hl Hd (Z.to_nat max_tries) w) as (A & B & C & D).
  repeat split; try apply A; try assumption.
  intros H. apply C. lia.
Qed.

Lemma generate_returns (nat_code : option string) (max_tries : Z)
  (w w' : World) (isbn : string) :
  generate_unique_isbn_for_nationality nat_code max_tries w = (Ok isbn, w') ->
  (exists p, isbn = candidate (tape w) p (segment_for nat_code))
  /\ isbn_taken w isbn = false
  /\ last (isbn_lookups w') = Some isbn
  /\ same_tables w w'.
Proof.
  intros H. destruct (segment_for_ok nat_code) as [Hl Hd].
  destruct (generate_loop_returns _ Hl Hd _ _ _ _ H) as (A & B & C & D & E & F & G).
  repeat split; assumption.
Qed.

(** [generate_unique_isbn_from_book] without an override: one search
    under the code of the main author, and after a failed one, or when
    there is no code, a search under ["000"]. *)
Lemma from_book_unfold (book : Book.t) (w : World) :
  generate_unique_isbn_from_book book None w
  = let c := _get_main_author_code_from_book w book in
    if truthy c then
      match generate_unique_isbn_for_nationality c default_max_tries w with
      | (Ok isbn, w1) => (Ok isbn, w1)
      | (Raise _, w1) =>
          generate_unique_isbn_for_nationality (Some "000"%string) default_max_tries w1
      end
    else generate_unique_isbn_for_nationality (Some "000"%string) default_max_tries w.
Proof.
  unfold generate_unique_isbn_from_book. cbn [truthy].
  unfold bind at 1. unfold try_except. unfold bind at 1. unfold gets. cbv zeta.
  destruct (truthy (_get_main_author_code_from_book w book)); [|reflexivity].
  unfold bind at 1.
  destruct (generate_unique_isbn_for_nationality
              (_get_main_author_code_from_book w book) default_max_tries w)
    as [[isbn|e] w1]; reflexivity.
Qed.

(** What [Book.generate_isbn] leaves behind, and what it returns. *)
Lemma generate_isbn_outcome (book : Book.t) (w : World) :
  same_tables w (snd (generate_isbn book w))
  /\ (rng_pos w + 2 <= rng_pos (snd (generate_isbn book w)))%nat
  /\ (forall e, fst (generate_isbn book w) = Raise e -> e = RuntimeError)
  /\ (forall isbn, fst (generate_isbn book w) = Ok isbn ->
        isbn_taken w isbn = false
        /\ exists p,
             isbn = candidate (tape w) p
                      (segment_for (_get_main_author_code_from_book w book))
             \/ isbn = candidate (tape w) p "000").
Proof.
  unfold generate_isbn. rewrite from_book_unfold. cbv zeta.
  set (c := _get_main_author_code_from_book w book).
  assert (Hmt : (1 <= default_max_tries)%Z) by (unfold default_max_tries; lia).
  destruct (truthy c).
  - pose proof (generate_outcome c default_max_tries w) as (A & B & C & D).
    specialize (C Hmt).
    destruct (generate_unique_isbn_for_nationality c default_max_tries w)
      as [[isbn|e] w1] eqn:E1; cbn [fst snd] in *.
    + split; [exact A|]. split; [exact C|]. split; [intros e [=]|].
      intros i [= <-]. destruct (generate_returns _ _ _ _ _ E1) as ((p & Hp) & Hf & _).
      split; [exact Hf|]. exists p. now left.
    + pose proof (generate_outcome (Some "000"%string) default_max_tries w1)
        as (A' & B' & C' & D').
      destruct (generate_unique_isbn_for_nationality (Some "000"%string)
                  default_max_tries w1) as [r2 w2] eqn:E2; cbn [fst snd] in *.
      split; [exact (same_tables_trans _ _ _ A A')|].
      split; [lia|]. split; [exact D'|].
      intros i ->. destruct (generate_returns _ _ _ _ _ E2) as ((p & Hp) & Hf & _).
      destruct A as (At & Ab & _).
      split.
      * unfold isbn_taken in *. now rewrite <- Ab.
      * exists p. right. now rewrite <- At.
  - pose proof (generate_outcome (Some "000"%string) default_max_tries w)
      as (A & B & C & D).
    specialize (C Hmt).
    destruct (generate_unique_isbn_for_nationality (Some "000"%string)
                default_max_tries w) as [r w1] eqn:E1; cbn [fst snd] in *.
    split; [exact A|]. split; [exact C|]. split; [exact D|].
    intros i ->. destruct (generate_returns _ _ _ _ _ E1) as ((p & Hp) & Hf & _).
    split; [exact Hf|]. exists p. now right.
Qed.

End GeneratorFrame.


Example is_allowed_examples :
  map _is_allowed_nat_code ["000"; "111"; "621"; "622"; "949"; "950"]%string
  = [true; true; true; false; false; true].
Proof. reflexivity. Qed.



(** ** The update of the identifier *)
Section Update.

Variable user : string.

Lemma normalize_nonempty (nat_code : option string) :
  nonempty (_normalize_nat_code nat_code) = true.
Proof.
  pose proof (normalize_length nat_code) as H.
  destruct (_normalize_nat_code nat_code); [discriminate H | reflexivity].
Qed.

Lemma nonempty_true (s : string) : nonempty s = true <-> s <> EmptyString.
Proof. destruct s; simpl; split; congruence. Qed.



Section WithNationality.
Variables (book : Book.t) (w : World) (rel : BookAuthor.t) (n : Nationality.t).
Hypothesis Hprimary : primary w book = Some rel.
Hypothesis Hnat : Author.nationality (BookAuthor.author rel) = Some n.
Hypothesis Hisbn : Book.isbn book <> EmptyString.

Let code3 := _normalize_nat_code (Some (Nationality.code n)).


Lemma update_mismatch :
  embedded_segment (Book.isbn book) <> code3 ->
  _update_book_isbn_if_needed user book w
  = match generate_isbn book w with
    | (Ok new_isbn, w1) =>
        if String.eqb new_isbn (Book.isbn book) || negb (nonempty new_isbn)
        then (Ok book, w1)
        else
          match Book_save_isbn (Book.set_isbn book new_isbn) w1 with
          | (Ok _, w2) => (Ok (Book.set_isbn book new_isbn), w2)
          | (Raise e, w2) => (Raise e, w2)
          end
    | (Raise e, w1) => (Raise e, w1)
    end.
Proof.
  intros E. apply nonempty_true in Hisbn.
  unfold _update_book_isbn_if_needed, bind at 1, gets.
  fold (primary w book). rewrite Hprimary. cbv zeta. rewrite Hnat, Hisbn.
  fold code3. fold (embedded_segment (Book.isbn book)).
  assert (String.eqb code3 (embedded_segment (Book.isbn book)) = false) as ->
    by (apply String.eqb_neq; congruence).
  unfold code3 at 1. rewrite normalize_nonempty. cbn [negb orb].
  unfold bind at 1.
  destruct (generate_isbn book w) as [[new_isbn|e] w1]; [|reflexivity].
  destruct (nonempty new_isbn), (String.eqb new_isbn (Book.isbn book));
    cbn [negb andb orb]; reflexivity.
Qed.

Lemma main_author_code :
  _get_main_author_code_from_book w book = Some (Nationality.code n).
Proof.
  unfold _get_main_author_code_from_book. cbv zeta.
  unfold primary in Hprimary.
  destruct (bookauthors_by_order w book) as [|main rest]; [discriminate|].
  injection Hprimary as ->. now rewrite Hnat.
Qed.

End WithNationality.

Lemma save_isbn_saved (b : Book.t) (row : Book.t) (w : World) :
  In row (book_table w) -> Book.pk row = Book.pk b ->
  Book_save_isbn b w = (Ok tt, store_isbn w b (Book.isbn b)).
Proof.
  intros Hin Hpk. unfold Book_save_isbn.
  assert (existsb (fun r => (Book.pk r =? Book.pk b)%Z) (book_table w) = true) as ->.
  { apply existsb_exists. exists row. split; [exact Hin|]. lia. }
  reflexivity.
Qed.

Lemma save_isbn_frame (b : Book.t) (w : World) :
  rng_pos (snd (Book_save_isbn b w)) = rng_pos w
  /\ (forall e, fst (Book_save_isbn b w) = Raise e -> snd (Book_save_isbn b w) = w).
Proof.
  unfold Book_save_isbn.
  destruct (existsb _ (book_table w)); simpl; split; congruence.
Qed.

Lemma taken_of_saved (book : Book.t) (w : World) :
  In book (book_table w) -> isbn_taken w (Book.isbn book) = true.
Proof.
  intros H. apply existsb_exists. exists book. split; [exact H|].
  apply String.eqb_refl.
Qed.

Lemma embedded_candidate (t : nat -> N) (p : nat) (nat3 : string) :
  String.length nat3 = 3%nat -> ascii_digits nat3 = true ->
  embedded_segment (candidate t p nat3) = nat3
  /\ candidate t p nat3 <> EmptyString.
Proof.
  intros Hl Hd.
  destruct (candidate_shape _ Hl Hd t p)
    as (prefix & pub & check & Hc & Hp & Hpub & Hchk & Hcl & Hlen & Hdig).
  split.
  - unfold embedded_segment. rewrite Hlen. cbn [Nat.leb]. rewrite Hc.
    assert (Hpl : String.length prefix = 3%nat) by (destruct Hp as [-> | ->]; reflexivity).
    pose proof (slice_segment prefix nat3 (String.append pub check)) as Hs.
    now rewrite Hpl, Hl in Hs.
  - intros E. rewrite E in Hlen. discriminate Hlen.
Qed.

(** A run that raises has written nothing: no identifier was assigned. *)
Lemma update_raise_frame (book : Book.t) (w w' : World) (e : exn) :
  _update_book_isbn_if_needed user book w = (Raise e, w') -> same_tables w w'.
Proof.
  unfold _update_book_isbn_if_needed, bind at 1, gets.
  destruct (head (bookauthors_by_order w book)) as [rel|]; [|discriminate].
  cbv zeta.
  pose proof (generate_isbn_outcome book w) as (Hs & _).
  assert (Hgen : forall (check : string -> bool),
    (let* new_isbn := generate_isbn book in
     if check new_isbn
     then let book0 := Book.set_isbn book new_isbn in
          let* _ := Book_save_isbn book0 in ret book0
     else ret book) w = (Raise e, w') -> same_tables w w').
  { intros check. unfold bind at 1.
    destruct (generate_isbn book w) as [[new_isbn|e1] w1]; cbn [snd] in Hs.
    - destruct (check new_isbn); [|discriminate]. cbv zeta. unfold bind, ret.
      pose proof (save_isbn_frame (Book.set_isbn book new_isbn) w1) as (_ & Hf).
      destruct (Book_save_isbn (Book.set_isbn book new_isbn) w1) as [[[]|e2] w2];
        [discriminate|].
      intros [= <- <-]. cbn [fst snd] in Hf. now rewrite (Hf e2 eq_refl).
    - now intros [= <- <-]. }
  destruct (negb (nonempty (Book.isbn book))).
  - apply (Hgen nonempty).
  - match goal with |- context [if ?c then ret book else _] => destruct c end;
      [discriminate|].
    apply (Hgen (fun new_isbn =>
                   nonempty new_isbn && negb (String.eqb new_isbn (Book.isbn book)))).
Qed.

(** With every candidate taken, both searches of [Book.generate_isbn]
    fail. *)
Lemma generate_isbn_exhausts (book : Book.t) (w : World) :
  (forall p seg,
     seg = segment_for (_get_main_author_code_from_book w book)
     \/ seg = "000"%string ->
     isbn_taken w (candidate (tape w) p seg) = true) ->
  exists w', generate_isbn book w = (Raise RuntimeError, w') /\ same_tables w w'.
Proof.
  intros Hall. unfold generate_isbn. rewrite from_book_unfold. cbv zeta.
  set (c := _get_main_author_code_from_book w book) in *.
  assert (Hsearch : forall nat_code w0,
    same_tables w w0 ->
    (forall p, isbn_taken w (candidate (tape w) p (segment_for nat_code)) = true) ->
    exists w',
      generate_unique_isbn_for_nationality nat_code default_max_tries w0
      = (Raise RuntimeError, w') /\ same_tables w w').
  { intros nat_code w0 (Ht & Hb & Hr) Hp.
    destruct (segment_for_ok nat_code) as [Hl Hd].
    destruct (generate_loop_exhausts _ Hl Hd (Z.to_nat default_max_tries) w0)
      as (w' & Hrun & _ & _ & Hb' & Hba' & Ha' & Ht').
    { intros i _. unfold isbn_taken in *. rewrite Ht, Hb. apply Hp. }
    exists w'. split; [exact Hrun|].
    destruct Hr as (Hba & Ha). repeat split; congruence. }
  destruct (truthy c).
  - destruct (Hsearch c w (same_tables_refl w)) as (w1 & -> & Hs1).
    { intros p. apply Hall. now left. }
    apply Hsearch; [exact Hs1|]. intros p. apply Hall. now right.
  - apply Hsearch; [apply same_tables_refl|]. intros p. apply Hall. now right.
Qed.

Lemma update_exhausted (book : Book.t) (w : World) :
  (forall p seg,
     seg = segment_for (_get_main_author_code_from_book w book)
     \/ seg = "000"%string ->
     isbn_taken w (candidate (tape w) p seg) = true) ->
  same_tables w (snd (_update_book_isbn_if_needed user book w))
  /\ (fst (_update_book_isbn_if_needed user book w) = Ok book
      \/ fst (_update_book_isbn_if_needed user book w) = Raise RuntimeError).
Proof.
  intros Hall. destruct (generate_isbn_exhausts book w Hall) as (w1 & Hg & Hs).
  destruct (_update_book_isbn_if_needed user book w) as [r w'] eqn:E.
  cbn [fst snd]. revert E.
  unfold _update_book_isbn_if_needed, bind at 1, gets.
  destruct (head (bookauthors_by_order w book)) as [rel|];
    [|intros [= <- <-]; split; [apply same_tables_refl | now left]].
  cbv zeta.
  destruct (negb (nonempty (Book.isbn book))).
  - unfold bind at 1. rewrite Hg. intros [= <- <-]. split; [exact Hs | now right].
  - match goal with |- context [if ?c then ret book else _] => destruct c end.
    + intros [= <- <-]. split; [apply same_tables_refl | now left].
    + unfold bind at 1. rewrite Hg. intros [= <- <-]. split; [exact Hs | now right].
Qed.

End Update.

(** C4: an identifier that [generate_unique_isbn_for_nationality] returns
    was looked up last and was not in the [Book] table; when every
    candidate drawn is in the table, the function makes exactly
    [max_tries] draws (two random values each), looks each candidate up
    once, raises [RuntimeError] and leaves the tables as they were; a run
    of [_update_book_isbn_if_needed] that raises has written no
    identifier, and with every candidate taken the run either has nothing
    to do or raises [RuntimeError]. *)
Theorem generate_respects_registry
  (nat_code : option string) (max_tries : Z) (w : World) :
  (forall isbn w',
     generate_unique_isbn_for_nationality nat_code max_tries w = (Ok isbn, w') ->
     isbn_taken w isbn = false
     /\ last (isbn_lookups w') = Some isbn
     /\ book_table w' = book_table w)
  /\ ((forall i, (i < Z.to_nat max_tries)%nat ->
         isbn_taken w
           (candidate (tape w) (rng_pos w + 2 * i) (segment_for nat_code)) = true) ->
      exists w',
        generate_unique_isbn_for_nationality nat_code max_tries w
        = (Raise RuntimeError, w')
        /\ rng_pos w' = (rng_pos w + 2 * Z.to_nat max_tries)%nat
        /\ isbn_lookups w'
           = isbn_lookups w
             ++ map (fun i => candidate (tape w) (rng_pos w + 2 * i)
                                (segment_for nat_code))
                  (seq 0 (Z.to_nat max_tries))
        /\ length (isbn_lookups w')
           = (length (isbn_lookups w) + Z.to_nat max_tries)%nat
        /\ same_tables w w')
  /\ (forall user book e w',
        _update_book_isbn_if_needed user book w = (Raise e, w') ->
        book_table w' = book_table w)
  /\ (forall user book,
        (forall p seg,
           seg = segment_for (_get_main_author_code_from_book w book)
           \/ seg = "000"%string ->
           isbn_taken w (candidate (tape w) p seg) = true) ->
        book_table (snd (_update_book_isbn_if_needed user book w)) = book_table w
        /\ (fst (_update_book_isbn_if_needed user book w) = Ok book
            \/ fst (_update_book_isbn_if_needed user book w) = Raise RuntimeError)).
Proof.
  split; [|split; [|split]].
  - intros isbn w' H.
    destruct (generate_returns _ _ _ _ _ H) as (_ & Hf & Hlast & _ & Hb & _).
    repeat split; assumption.
  - intros Hall. destruct (segment_for_ok nat_code) as [Hl Hd].
    destruct (generate_loop_exhausts _ Hl Hd _ _ Hall)
      as (w' & Hrun & Hpos & Hlook & Hb & Hba & Ha & Ht).
    exists w'. split; [exact Hrun|]. split; [exact Hpos|]. split; [exact Hlook|].
    split.
    + rewrite Hlook, length_app, length_map, length_seq. reflexivity.
    + repeat split; assumption.
  - intros user book e w' H. now destruct (update_raise_frame _ _ _ _ _ H) as (_ & ? & _).
  - intros user book Hall. destruct (update_exhausted user book w Hall) as ((_ & Hb & _) & Hr).
    split; assumption.
Qed.

Lemma generate_respects_registry_witness :
  let w := Sample.world (fun _ => 0%N) [Sample.book_taken] [] in
  exists w',
    generate_unique_isbn_for_nationality (Some "600"%string) 3 w
    = (Raise RuntimeError, w')
    /\ rng_pos w' = 6%nat
    /\ length (isbn_lookups w') = 3%nat.
Proof.
  intros w.
  destruct (generate_respects_registry (Some "600"%string) 3 w) as (_ & H & _).
  destruct H as (w' & Hrun & Hpos & _ & Hlen & _).
  - intros i _. reflexivity.
  - exists w'. split; [exact Hrun|]. split; [|exact Hlen].
    rewrite Hpos. reflexivity.
Defined.


(** ** Regeneration *)
Section Regeneration.

Variable user : string.


(** The search under the primary contributor's code is the first thing
    [Book.generate_isbn] tries. *)
Lemma generate_isbn_first_search
  (book : Book.t) (w w1 : World) (rel : BookAuthor.t) (n : Nationality.t)
  (new_isbn : string) :
  primary w book = Some rel ->
  Author.nationality (BookAuthor.author rel) = Some n ->
  generate_unique_isbn_for_nationality (Some (Nationality.code n)) default_max_tries w
  = (Ok new_isbn, w1) ->
  generate_isbn book w = (Ok new_isbn, w1).
Proof.
  intros Hp Hn Hg. unfold generate_isbn. rewrite from_book_unfold. cbv zeta.
  rewrite (main_author_code book w rel n Hp Hn).
  destruct (Nationality.code n) as [|c r] eqn:Ec.
  - exact Hg.
  - cbn [truthy]. now rewrite Hg.
Qed.

(** What a run does once it has decided to regenerate and the generator
    has returned. *)
Lemma assign_generated (book : Book.t) (w w1 : World) (new_isbn : string) :
  In book (book_table w) ->
  generate_isbn book w = (Ok new_isbn, w1) ->
  (if String.eqb new_isbn (Book.isbn book) || negb (nonempty new_isbn)
   then (Ok book, w1)
   else
     match Book_save_isbn (Book.set_isbn book new_isbn) w1 with
     | (Ok _, w2) => (Ok (Book.set_isbn book new_isbn), w2)
     | (Raise e, w2) => (Raise e, w2)
     end)
  = (Ok (Book.set_isbn book new_isbn), store_isbn w1 book new_isbn)
  /\ new_isbn <> Book.isbn book
  /\ new_isbn <> EmptyString
  /\ isbn_taken w new_isbn = false
  /\ same_tables w w1
  /\ (rng_pos w + 2 <= rng_pos w1)%nat.
Proof.
  intros Hin Hg.
  pose proof (generate_isbn_outcome book w) as (Hs & Hr & _ & Hok).
  rewrite Hg in Hs, Hr, Hok. cbn [fst snd] in Hs, Hr, Hok.
  destruct (Hok new_isbn eq_refl) as (Hfree & p & Hc).
  assert (Hne : new_isbn <> Book.isbn book).
  { intros ->. rewrite (taken_of_saved _ _ Hin) in Hfree. discriminate. }
  assert (Hnonempty : new_isbn <> EmptyString).
  { destruct Hc as [-> | ->].
    - destruct (segment_for_ok (_get_main_author_code_from_book w book)) as [Hl Hd].
      now apply embedded_candidate.
    - now apply embedded_candidate. }
  split; [|repeat split; try assumption; apply Hs].
  apply String.eqb_neq in Hne. rewrite Hne.
  apply nonempty_true in Hnonempty. rewrite Hnonempty. cbn [negb orb].
  destruct Hs as (_ & Hb & _).
  rewrite (save_isbn_saved (Book.set_isbn book new_isbn) book w1);
    [reflexivity | now rewrite Hb | reflexivity].
Qed.




End Regeneration.






(** ** The primary contributor *)
Section Resolver.

Context {A : Type} (le : A -> A -> bool).



Lemma sort_by_nil (l : list A) : sort_by le l = [] -> l = [].
Proof.
  destruct l as [|x l]; [reflexivity|]. simpl.
  destruct (sort_by le l) as [|z r]; simpl; [discriminate|].
  destruct (le x z); discriminate.
Qed.

Hypothesis le_total : forall x y, le x y = false -> le y x = true.
Hypothesis le_trans : forall x y z, le x y = true -> le y z = true -> le x z = true.
Hypothesis le_refl : forall x, le x x = true.


End Resolver.







(** ** The order of a new membership *)
Section MembershipOrder.



End MembershipOrder.




(** ** Snapshots, their difference and the audit record *)
Section Diff.

Lemma py_eq_refl (v : PyVal) : py_eq v v = true.
Proof.
  destruct v as [|b|n|s]; simpl.
  - reflexivity.
  - now destruct b.
  - apply Z.eqb_refl.
  - apply String.eqb_refl.
Qed.

Lemma existsb_false {A} (f : A -> bool) (l : list A) :
  (forall x, In x l -> f x = false) -> existsb f l = false.
Proof.
  induction l as [|x l IH]; intros H; simpl; [reflexivity|].
  rewrite (H x (or_introl eq_refl)), IH; [reflexivity|].
  intros y Hy. apply H. now right.
Qed.

Lemma keys_In (m : gmap string PyVal) (k : string) :
  In k (map fst (map_to_list m)) <-> k ∈ dom m.
Proof.
  rewrite elem_of_dom, in_map_iff. split.
  - intros ([k' v] & <- & Hin). exists v.
    apply elem_of_map_to_list, list_elem_of_In, Hin.
  - intros [v Hv]. exists (k, v). split; [reflexivity|].
    apply list_elem_of_In, elem_of_map_to_list, Hv.
Qed.

Lemma dict_is_empty_true {V} (d : gmap string V) : dict_is_empty d = true <-> d = ∅.
Proof. unfold dict_is_empty. apply bool_decide_eq_true. Qed.

Lemma dict_is_empty_false {V} (d : gmap string V) : dict_is_empty d = false <-> d <> ∅.
Proof. unfold dict_is_empty. apply bool_decide_eq_false. Qed.

(** Once a key of [after] differs, every key of [after] is reported. *)
Lemma diff_changed (before after : gmap string PyVal) :
  before <> ∅ ->
  (exists k, k ∈ dom after /\ py_ne (dict_get before k) (dict_get after k) = true) ->
  _diff_snapshots (Some before) after
  = map_imap (fun k _ => Some (dict_get before k, dict_get after k)) after.
Proof.
  intros Hb (k & Hk & Hne). unfold _diff_snapshots.
  apply dict_is_empty_false in Hb. rewrite Hb. cbv zeta.
  assert (existsb (fun k => py_ne (dict_get before k) (dict_get after k))
            (map fst (map_to_list after)) = true) as ->; [|reflexivity].
  apply existsb_exists. exists k. split; [now apply keys_In | exact Hne].
Qed.

Lemma diff_unchanged (before : option (gmap string PyVal)) (after : gmap string PyVal) :
  (forall b k, before = Some b -> k ∈ dom after ->
               py_ne (dict_get b k) (dict_get after k) = false) ->
  _diff_snapshots before after = ∅.
Proof.
  intros H. unfold _diff_snapshots. destruct before as [b|]; [|reflexivity].
  destruct (dict_is_empty b); [reflexivity|]. cbv zeta.
  rewrite existsb_false; [reflexivity|].
  intros k Hk. apply (H b k eq_refl). now apply keys_In.
Qed.

Lemma diff_same (s : gmap string PyVal) : _diff_snapshots (Some s) s = ∅.
Proof.
  apply diff_unchanged. intros b k [= <-] _.
  unfold py_ne. now rewrite py_eq_refl.
Qed.

Lemma log_update_cases (user : string) (book : Book.t)
  (changes : gmap string (PyVal * PyVal)) (w : World) :
  (changes = ∅ /\ log_book_update user book changes w = (Ok tt, w))
  \/ (changes <> ∅
      /\ exists e,
           log_book_update user book changes w
           = (Ok tt, set_audit_log w (audit_log w ++ [e]))
           /\ LogEntry.action e = UPDATE
           /\ LogEntry.changes e = changes
           /\ LogEntry.actor e = user).
Proof.
  unfold log_book_update. destruct (dict_is_empty changes) eqn:E.
  - left. split; [now apply dict_is_empty_true | reflexivity].
  - right. split; [now apply dict_is_empty_false|].
    eexists. repeat split.
Qed.

(** The update of the identifier writes no audit record. *)
Lemma update_audit_frame (user : string) (book : Book.t) (w : World) :
  audit_log (snd (_update_book_isbn_if_needed user book w)) = audit_log w.
Proof.
  unfold _update_book_isbn_if_needed, bind at 1, gets.
  destruct (head (bookauthors_by_order w book)) as [rel|]; [|reflexivity].
  cbv zeta.
  pose proof (generate_isbn_outcome book w) as ((_ & _ & _ & Ha) & _).
  assert (Hgen : forall (check : string -> bool),
    audit_log (snd ((let* new_isbn := generate_isbn book in
                     if check new_isbn
                     then let book0 := Book.set_isbn book new_isbn in
                          let* _ := Book_save_isbn book0 in ret book0
                     else ret book) w)) = audit_log w).
  { intros check. unfold bind at 1.
    destruct (generate_isbn book w) as [[new_isbn|e1] w1]; cbn [snd] in Ha; [|exact Ha].
    destruct (check new_isbn); [|exact Ha]. cbv zeta. unfold bind, ret, Book_save_isbn.
    destruct (existsb _ (book_table w1)); exact Ha. }
  destruct (negb (nonempty (Book.isbn book))).
  - apply (Hgen nonempty).
  - match goal with |- context [if ?c then ret book else _] => destruct c end;
      [reflexivity|].
    apply (Hgen (fun new_isbn =>
                   nonempty new_isbn && negb (String.eqb new_isbn (Book.isbn book)))).
Qed.

End Diff.

(** C1, as the code has it: the change set is empty when the snapshot
    taken before is missing or empty, and when no key of [after] has a
    different value before; once one key differs it has every key of
    [after], each with the pair of its old and new value, so that an
    update of a single field reports all fields, the unchanged ones with
    two equal values. *)
Theorem diff_snapshots_spec (before after : gmap string PyVal) :
  let changed k := py_ne (dict_get before k) (dict_get after k) = true in
  let changes := _diff_snapshots (Some before) after in
  _diff_snapshots None after = ∅
  /\ (before = ∅ -> changes = ∅)
  /\ ((forall k, k ∈ dom after -> ~ changed k) -> changes = ∅)
  /\ (before <> ∅ -> (exists k, k ∈ dom after /\ changed k) ->
      dom changes = dom after
      /\ forall k, k ∈ dom after ->
           changes !! k = Some (dict_get before k, dict_get after k)).
Proof.
  intros changed changes. subst changed changes. cbv beta.
  split; [reflexivity|]. split; [|split].
  - intros ->. reflexivity.
  - intros H. apply diff_unchanged. intros b k [= <-] Hk.
    specialize (H k Hk). now destruct (py_ne (dict_get before k) (dict_get after k)).
  - intros Hb Hex. rewrite (diff_changed before after Hb Hex).
    assert (Hlook : forall k,
      map_imap (fun k _ => Some (dict_get before k, dict_get after k)) after !! k
      = match after !! k with
        | Some _ => Some (dict_get before k, dict_get after k)
        | None => None
        end).
    { intros k. rewrite map_lookup_imap. now destruct (after !! k). }
    split.
    + apply set_eq. intros k. rewrite !elem_of_dom, Hlook.
      destruct (after !! k); split; intros [x Hx]; eauto; discriminate.
    + intros k [a Ha]%elem_of_dom. now rewrite Hlook, Ha.
Qed.

Lemma diff_snapshots_spec_witness :
  let w := Sample.world (fun _ => 0%N) [Sample.book1] [Sample.membership 1 Sample.ion 1] in
  dom (_diff_snapshots (Some (_snapshot_book_state w Sample.book1))
         (_snapshot_book_state w Sample.book1_retitled))
  = dom (_snapshot_book_state w Sample.book1_retitled).
Proof.
  intros w.
  destruct (diff_snapshots_spec (_snapshot_book_state w Sample.book1)
              (_snapshot_book_state w Sample.book1_retitled)) as (_ & _ & _ & H).
  apply H.
  - intros E. apply (f_equal (fun m : gmap string PyVal => m !! "id"%string)) in E.
    discriminate E.
  - exists "title"%string. split; [|reflexivity].
    apply elem_of_dom. eexists. reflexivity.
Defined.

(** C1 as stated fails: after an edit of the title alone the change set
    also has the key ["isbn"], whose value did not change. *)
Lemma diff_reports_unchanged_fields :
  let w := Sample.world (fun _ => 0%N) [Sample.book1] [Sample.membership 1 Sample.ion 1] in
  let before := _snapshot_book_state w Sample.book1 in
  let after := _snapshot_book_state w Sample.book1_retitled in
  py_ne (dict_get before "isbn") (dict_get after "isbn") = false
  /\ _diff_snapshots (Some before) after !! "isbn"%string
     = Some (VStr "9786000000017", VStr "9786000000017")
  /\ dom (_diff_snapshots (Some before) after) <> {[ "title"%string ]}.
Proof.
  intros w before after. split; [reflexivity|]. split; [reflexivity|].
  intros E.
  assert (H : "isbn"%string ∈ dom (_diff_snapshots (Some before) after)).
  { apply elem_of_dom. eexists. reflexivity. }
  rewrite E in H. apply elem_of_singleton in H. discriminate H.
Qed.

(** C8: the difference of a snapshot with itself is empty;
    [log_book_update] writes nothing for an empty change set; whatever
    [save_formset] does on an update, it leaves the audit log as it was or
    adds one UPDATE record whose change set is not empty; and when the
    update of the identifier changes nothing, the snapshot stored before
    and the one taken after agree and no record is written. *)
Theorem no_audit_record_without_change (user : string) (book : Book.t) (w : World) :
  _diff_snapshots (Some (_snapshot_book_state w book)) (_snapshot_book_state w book) = ∅
  /\ log_book_update user book ∅ w = (Ok tt, w)
  /\ (forall changes,
        let w' := snd (log_book_update user book changes w) in
        audit_log w' = audit_log w
        \/ exists e, audit_log w' = audit_log w ++ [e]
                     /\ LogEntry.action e = UPDATE
                     /\ LogEntry.changes e = changes
                     /\ changes <> ∅)
  /\ (forall before,
        let w' := snd (save_formset_change user book before w) in
        audit_log w' = audit_log w
        \/ exists e, audit_log w' = audit_log w ++ [e]
                     /\ LogEntry.action e = UPDATE
                     /\ LogEntry.changes e <> ∅)
  /\ (get_book w (Book.pk book) = Some book ->
      _update_book_isbn_if_needed user book w = (Ok book, w) ->
      save_formset_change user book (save_model_before w book) w = (Ok book, w)).
Proof.
  split; [apply diff_same|]. split; [reflexivity|]. split; [|split].
  - intros changes w'. subst w'.
    destruct (log_update_cases user book changes w) as [[_ ->] | (Hne & e & -> & Ha & Hc & _)].
    + now left.
    + right. exists e. repeat split; assumption.
  - intros before w'. subst w'.
    destruct (save_formset_change user book before w) as [r w'] eqn:Erun.
    cbn [snd]. revert Erun. unfold save_formset_change, bind at 1.
    pose proof (update_audit_frame user book w) as Hframe.
    destruct (_update_book_isbn_if_needed user book w) as [[book1|e] w1];
      cbn [snd] in Hframe; [|intros [= <- <-]; now left].
    unfold bind at 1, gets. unfold bind at 1.
    match goal with
    | |- context [if dict_is_empty ?c then ret _ else _] => set (changes := c)
    end.
    destruct (dict_is_empty changes) eqn:E; [intros [= <- <-]; now left|].
    unfold bind, ret.
    destruct (log_update_cases user book1 changes w1)
      as [[Hc _] | (Hne & e & Hrun & Ha & Hc & _)].
    + apply dict_is_empty_false in E. contradiction.
    + rewrite Hrun. intros [= <- <-]. cbn [audit_log set_audit_log]. right. exists e.
      rewrite Hframe, Hc. repeat split; assumption.
  - intros Hget Hrun. unfold save_formset_change, bind at 1. rewrite Hrun.
    unfold bind at 1, gets. rewrite Hget. unfold bind at 1.
    unfold save_model_before. rewrite Hget.
    rewrite diff_same.
    destruct (dict_is_empty (_snapshot_book_state w book)); reflexivity.
Qed.

Lemma no_audit_record_without_change_witness :
  let w := Sample.world (fun _ => 0%N) [Sample.book1] [Sample.membership 1 Sample.ion 1] in
  save_formset_change "admin" Sample.book1 (save_model_before w Sample.book1) w
  = (Ok Sample.book1, w).
Proof.
  intros w.
  destruct (no_audit_record_without_change "admin" Sample.book1 w) as (_ & _ & _ & _ & H).
  apply H; reflexivity.
Defined.

(** * Further properties of the code *)

(** ** Error detection of the check digit *)
Section CheckDigitErrors.

Lemma digit_value_inj (c c' : ascii) : digit_value c = digit_value c' -> c = c'.
Proof.
  unfold digit_value, code. intros H.
  rewrite <- (ascii_N_embedding c), <- (ascii_N_embedding c'). f_equal. lia.
Qed.

Lemma digit_char_inj (d d' : Z) :
  (0 <= d <= 9)%Z -> (0 <= d' <= 9)%Z -> digit_char d = digit_char d' -> d = d'.
Proof.
  intros H H' E.
  destruct (digit_char_ok d H) as [_ <-]. destruct (digit_char_ok d' H') as [_ <-].
  now rewrite E.
Qed.

(** Two strings of twelve ASCII digits have the same check digit exactly
    when their weighted sums agree modulo 10. *)
Lemma check_digit_eq_iff (s s' : string) :
  String.length s = 12%nat -> ascii_digits s = true ->
  String.length s' = 12%nat -> ascii_digits s' = true ->
  isbn13_check_digit s = isbn13_check_digit s'
  <-> (weighted_sum s mod 10 = weighted_sum s' mod 10)%Z.
Proof.
  intros Hl Hd Hl' Hd'.
  rewrite (isbn13_check_digit_digits s Hl Hd), (isbn13_check_digit_digits s' Hl' Hd').
  pose proof (Z.mod_pos_bound (weighted_sum s) 10 ltac:(lia)) as B.
  pose proof (Z.mod_pos_bound (weighted_sum s') 10 ltac:(lia)) as B'.
  pose proof (Z.mod_pos_bound (10 - weighted_sum s mod 10) 10 ltac:(lia)) as C.
  pose proof (Z.mod_pos_bound (10 - weighted_sum s' mod 10) 10 ltac:(lia)) as C'.
  split.
  - intros [= E]. apply digit_char_inj in E; [|lia|lia].
    set (x := (weighted_sum s mod 10)%Z) in *. set (y := (weighted_sum s' mod 10)%Z) in *.
    clearbody x y.
    assert (Hx : ((10 - x) mod 10 = if (x =? 0)%Z then 0 else 10 - x)%Z).
    { destruct (x =? 0)%Z eqn:E0.
      - apply Z.eqb_eq in E0. now rewrite E0.
      - apply Z.eqb_neq in E0. apply Z.mod_small. lia. }
    assert (Hy : ((10 - y) mod 10 = if (y =? 0)%Z then 0 else 10 - y)%Z).
    { destruct (y =? 0)%Z eqn:E0.
      - apply Z.eqb_eq in E0. now rewrite E0.
      - apply Z.eqb_neq in E0. apply Z.mod_small. lia. }
    rewrite Hx, Hy in E. clear Hx Hy C C'.
    destruct (Z.eqb_spec x 0), (Z.eqb_spec y 0); lia.
  - intros E. now rewrite E.
Qed.

Lemma weight_cases (i : nat) :
  (if Nat.even i then 1%Z else 3%Z) = 1%Z /\ (if Nat.even (S i) then 1%Z else 3%Z) = 3%Z
  \/ (if Nat.even i then 1%Z else 3%Z) = 3%Z /\ (if Nat.even (S i) then 1%Z else 3%Z) = 1%Z.
Proof.
  rewrite Nat.even_succ, <- Nat.negb_even.
  destruct (Nat.even i); simpl; auto.
Qed.

End CheckDigitErrors.

(** A single wrong digit always changes the check digit: two strings of
    twelve ASCII digits that differ in exactly one position never get the
    same check digit from [isbn13_check_digit]. *)
Theorem check_digit_detects_single_error (a b : string) (c c' : ascii) :
  String.length (String.append a (String c b)) = 12%nat ->
  ascii_digits (String.append a (String c b)) = true ->
  is_ascii_digit c' = true ->
  c <> c' ->
  isbn13_check_digit (String.append a (String c b))
  <> isbn13_check_digit (String.append a (String c' b)).
Proof.
  intros Hl Hd Hc' Hne E.
  assert (Hl' : String.length (String.append a (String c' b)) = 12%nat).
  { rewrite length_append in *. exact Hl. }
  assert (Hparts : ascii_digits a = true /\ is_ascii_digit c = true /\ ascii_digits b = true).
  { unfold ascii_digits in *. rewrite forallb_append in Hd. simpl in Hd.
    apply andb_true_iff in Hd as [Ha Hcb]. apply andb_true_iff in Hcb as [Hc Hb]. auto. }
  destruct Hparts as (Ha & Hc & Hb).
  assert (Hd' : ascii_digits (String.append a (String c' b)) = true).
  { unfold ascii_digits in *. rewrite forallb_append. simpl. now rewrite Ha, Hc', Hb. }
  apply (check_digit_eq_iff _ _ Hl Hd Hl' Hd') in E.
  unfold weighted_sum in E. rewrite !weighted_sum_append in E.
  cbn [weighted_sum_from] in E.
  set (A := weighted_sum_from 0 a) in *.
  set (B := weighted_sum_from (S (0 + String.length a)) b) in *.
  pose proof (digit_value_range c Hc) as Rc. pose proof (digit_value_range c' Hc') as Rc'.
  assert (Hv : digit_value c <> digit_value c') by (intros Hv; now apply digit_value_inj in Hv).
  set (wt := if Nat.even (0 + String.length a) then 1%Z else 3%Z) in *.
  assert (Hw : wt = 1%Z \/ wt = 3%Z) by (subst wt; destruct (Nat.even _); auto).
  assert (Hdiv : (((A + (digit_value c * wt + B)) - (A + (digit_value c' * wt + B))) mod 10 = 0)%Z).
  { rewrite Zminus_mod, E, Z.sub_diag. reflexivity. }
  apply Z.mod_divide in Hdiv; [|lia]. destruct Hdiv as [k Hk].
  destruct Hw as [-> | ->]; lia.
Qed.

Lemma check_digit_detects_single_error_witness :
  isbn13_check_digit "978030640615" <> isbn13_check_digit "978030740615".
Proof.
  apply (check_digit_detects_single_error "978030" "40615" "6" "7");
    [reflexivity | reflexivity | reflexivity | discriminate].
Defined.

(** Swapping two neighbouring digits goes unnoticed exactly when the two
    digits differ by 0 or 5: [isbn13_check_digit] gives the same digit for
    the two orders if and only if the difference is a multiple of 5. *)
Theorem check_digit_transposition (a b : string) (c1 c2 : ascii) :
  String.length (String.append a (String c1 (String c2 b))) = 12%nat ->
  ascii_digits (String.append a (String c1 (String c2 b))) = true ->
  isbn13_check_digit (String.append a (String c1 (String c2 b)))
  = isbn13_check_digit (String.append a (String c2 (String c1 b)))
  <-> ((digit_value c1 - digit_value c2) mod 5 = 0)%Z.
Proof.
  intros Hl Hd.
  assert (Hl' : String.length (String.append a (String c2 (String c1 b))) = 12%nat).
  { rewrite length_append in *. exact Hl. }
  assert (Hparts : ascii_digits a = true /\ is_ascii_digit c1 = true
                   /\ is_ascii_digit c2 = true /\ ascii_digits b = true).
  { unfold ascii_digits in *. rewrite forallb_append in Hd. simpl in Hd.
    apply andb_true_iff in Hd as [Ha H1]. apply andb_true_iff in H1 as [H1 H2].
    apply andb_true_iff in H2 as [H2 Hb]. auto. }
  destruct Hparts as (Ha & H1 & H2 & Hb).
  assert (Hd' : ascii_digits (String.append a (String c2 (String c1 b))) = true).
  { unfold ascii_digits in *. rewrite forallb_append. simpl. now rewrite Ha, H1, H2, Hb. }
  rewrite (check_digit_eq_iff _ _ Hl Hd Hl' Hd').
  unfold weighted_sum. rewrite !weighted_sum_append. cbn [weighted_sum_from].
  set (A := weighted_sum_from 0 a).
  set (B := weighted_sum_from (S (S (0 + String.length a))) b).
  pose proof (digit_value_range c1 H1) as R1. pose proof (digit_value_range c2 H2) as R2.
  set (v1 := digit_value c1) in *. set (v2 := digit_value c2) in *.
  destruct (weight_cases (0 + String.length a)) as [[-> ->] | [-> ->]].
  - split.
    + intros E.
      assert (Hdiv : (((A + (v1 * 1 + (v2 * 3 + B))) - (A + (v2 * 1 + (v1 * 3 + B)))) mod 10 = 0)%Z).
      { rewrite Zminus_mod, E, Z.sub_diag. reflexivity. }
      apply Z.mod_divide in Hdiv; [|lia]. destruct Hdiv as [k Hk].
      apply Z.mod_divide; [lia|]. exists (- k)%Z. lia.
    + intros E. apply Z.mod_divide in E; [|lia]. destruct E as [k Hk].
      replace (A + (v1 * 1 + (v2 * 3 + B)))%Z
        with (A + (v2 * 1 + (v1 * 3 + B)) + (- k) * 10)%Z by lia.
      apply Z_mod_plus_full.
  - split.
    + intros E.
      assert (Hdiv : (((A + (v1 * 3 + (v2 * 1 + B))) - (A + (v2 * 3 + (v1 * 1 + B)))) mod 10 = 0)%Z).
      { rewrite Zminus_mod, E, Z.sub_diag. reflexivity. }
      apply Z.mod_divide in Hdiv; [|lia]. destruct Hdiv as [k Hk].
      apply Z.mod_divide; [lia|]. exists k. lia.
    + intros E. apply Z.mod_divide in E; [|lia]. destruct E as [k Hk].
      replace (A + (v1 * 3 + (v2 * 1 + B)))%Z
        with (A + (v2 * 3 + (v1 * 1 + B)) + k * 10)%Z by lia.
      apply Z_mod_plus_full.
Qed.

Lemma check_digit_transposition_witness :
  isbn13_check_digit "978030640615" = isbn13_check_digit "978030640165".
Proof.
  apply (check_digit_transposition "978030640" "5" "6" "1"); reflexivity.
Defined.

(** Normalizing twice is normalizing once: a normalized code is its own
    normalization. *)
Theorem normalize_idempotent (nat_code : option string) :
  _normalize_nat_code (Some (_normalize_nat_code nat_code))
  = _normalize_nat_code nat_code.
Proof.
  pose proof (normalize_length nat_code) as Hl.
  assert (Hd : str_forallb isdigit_char (_normalize_nat_code nat_code) = true).
  { apply normalize_forallb; [reflexivity|]. intros raw _. apply forallb_filter. }
  set (r := _normalize_nat_code nat_code) in *.
  rewrite normalize_unfold.
  assert (Hf : digits_of r = r).
  { unfold digits_of. clear Hl. induction r as [|c r IH]; simpl in *; [reflexivity|].
    apply andb_true_iff in Hd as [Hc Hr]. rewrite Hc. f_equal. now apply IH. }
  rewrite Hf. unfold fit3. rewrite Hl. cbn [Nat.leb].
  destruct r as [|c r]; [discriminate Hl|]. cbn [nonempty].
  rewrite <- Hl. apply take_all.
Qed.

(** ** Which candidate the generator returns *)
Section FirstFree.

Variable nat3 : string.
Hypothesis nat3_length : String.length nat3 = 3%nat.
Hypothesis nat3_digits : ascii_digits nat3 = true.

Lemma generate_loop_first_free (i : nat) : forall (k : nat) (w : World),
  (i < k)%nat ->
  isbn_taken w (candidate (tape w) (rng_pos w + 2 * i) nat3) = false ->
  (forall j, (j < i)%nat ->
             isbn_taken w (candidate (tape w) (rng_pos w + 2 * j) nat3) = true) ->
  exists w',
    generate_loop nat3 k w
    = (Ok (candidate (tape w) (rng_pos w + 2 * i) nat3), w')
    /\ rng_pos w' = (rng_pos w + 2 * S i)%nat
    /\ isbn_lookups w'
       = isbn_lookups w
         ++ map (fun j => candidate (tape w) (rng_pos w + 2 * j) nat3) (seq 0 (S i))
    /\ same_tables w w'.
Proof.
  induction i as [|i IH]; intros k w Hk Hfree Htaken.
  - destruct k as [|k]; [lia|].
    rewrite (generate_loop_step nat3 nat3_length nat3_digits). cbv zeta.
    rewrite Nat.mul_0_r, Nat.add_0_r in Hfree. rewrite Hfree.
    eexists. split; [rewrite Nat.mul_0_r, Nat.add_0_r; reflexivity|].
    split; [cbn; lia|]. split; [|apply same_tables_after_draw].
    cbn [seq map]. now rewrite Nat.mul_0_r, Nat.add_0_r.
  - destruct k as [|k]; [lia|].
    rewrite (generate_loop_step nat3 nat3_length nat3_digits). cbv zeta.
    pose proof (Htaken 0%nat ltac:(lia)) as H0.
    rewrite Nat.mul_0_r, Nat.add_0_r in H0. rewrite H0.
    set (w0 := after_draw w (candidate (tape w) (rng_pos w) nat3)).
    assert (Hshift : forall j,
      candidate (tape w0) (rng_pos w0 + 2 * j) nat3
      = candidate (tape w) (rng_pos w + 2 * S j) nat3).
    { intros j. unfold w0, after_draw. cbn [tape rng_pos set_rng_pos set_isbn_lookups].
      f_equal. lia. }
    destruct (IH k w0) as (w' & Hrun & Hpos & Hlook & Hs).
    + lia.
    + rewrite Hshift. exact Hfree.
    + intros j Hj. rewrite Hshift. apply Htaken. lia.
    + exists w'. rewrite Hrun, Hshift. split; [reflexivity|].
      split; [rewrite Hpos; unfold w0, after_draw; cbn; lia|].
      split; [|exact (same_tables_trans _ _ _ (same_tables_after_draw _ _) Hs)].
      rewrite Hlook. unfold w0 at 1, after_draw.
      cbn [isbn_lookups set_isbn_lookups set_rng_pos]. rewrite <- app_assoc. f_equal.
      change (seq 0 (S (S i))) with (0%nat :: seq 1 (S i)).
      cbn [map app]. rewrite Nat.mul_0_r, Nat.add_0_r. f_equal.
      rewrite <- seq_shift, map_map. apply map_ext. intros j. apply Hshift.
Qed.

End FirstFree.

(** [generate_unique_isbn_for_nationality] returns the first candidate on
    the random tape that is not in the [Book] table, provided it is among
    the first [max_tries]: it has then made one draw and one lookup for
    that candidate and for each taken one before it, and nothing else. *)
Theorem generate_returns_first_free
  (nat_code : option string) (max_tries : Z) (w : World) (i : nat) :
  let cand j := candidate (tape w) (rng_pos w + 2 * j) (segment_for nat_code) in
  (i < Z.to_nat max_tries)%nat ->
  isbn_taken w (cand i) = false ->
  (forall j, (j < i)%nat -> isbn_taken w (cand j) = true) ->
  exists w',
    generate_unique_isbn_for_nationality nat_code max_tries w = (Ok (cand i), w')
    /\ rng_pos w' = (rng_pos w + 2 * S i)%nat
    /\ isbn_lookups w' = isbn_lookups w ++ map cand (seq 0 (S i))
    /\ same_tables w w'.
Proof.
  intros cand Hi Hfree Htaken. destruct (segment_for_ok nat_code) as [Hl Hd].
  exact (generate_loop_first_free _ Hl Hd i _ w Hi Hfree Htaken).
Qed.

Lemma generate_returns_first_free_witness :
  let w := Sample.world (fun p => if (p <? 2)%nat then 0%N else 1%N) [Sample.book_taken] [] in
  exists w',
    generate_unique_isbn_for_nationality (Some "600"%string) 5 w
    = (Ok "9796000000010"%string, w')
    /\ rng_pos w' = 4%nat.
Proof.
  intros w.
  destruct (generate_returns_first_free (Some "600"%string) 5 w 1)
    as (w' & Hrun & Hpos & _).
  - simpl. lia.
  - reflexivity.
  - intros j Hj. assert (j = 0)%nat as -> by lia. reflexivity.
  - exists w'. split; [exact Hrun | exact Hpos].
Defined.

(** A search under the main author's code that uses up its 5000 tries
    does not surface from [Book.generate_isbn]: the [except] clause of
    [generate_unique_isbn_from_book] swallows the [RuntimeError] and a
    second search under ["000"] follows, whose first free candidate is
    returned. *)
Theorem exhausted_search_falls_back_to_sentinel
  (book : Book.t) (w : World) (c : ascii) (rest : string) :
  let code := String c rest in
  let n := Z.to_nat default_max_tries in
  _get_main_author_code_from_book w book = Some code ->
  (forall j, (j < n)%nat ->
     isbn_taken w (candidate (tape w) (rng_pos w + 2 * j) (segment_for (Some code))) = true) ->
  isbn_taken w (candidate (tape w) (rng_pos w + 2 * n) "000") = false ->
  exists w',
    generate_isbn book w = (Ok (candidate (tape w) (rng_pos w + 2 * n) "000"), w')
    /\ rng_pos w' = (rng_pos w + 2 * n + 2)%nat
    /\ length (isbn_lookups w') = (length (isbn_lookups w) + n + 1)%nat
    /\ same_tables w w'.
Proof.
  intros code n Hmain Hall Hfree. subst code.
  unfold generate_isbn. rewrite from_book_unfold. cbv zeta. rewrite Hmain.
  cbn [truthy].
  destruct (segment_for_ok (Some (String c rest))) as [Hl Hd].
  destruct (generate_loop_exhausts _ Hl Hd n w Hall)
    as (w1 & Hrun1 & Hpos1 & Hlook1 & Hb1 & Hba1 & Ha1 & Ht1).
  assert (Hg1 : generate_unique_isbn_for_nationality
                  (Some (String c rest)) default_max_tries w
                = (Raise RuntimeError, w1)) by exact Hrun1.
  rewrite Hg1.
  destruct (generate_returns_first_free (Some "000"%string) default_max_tries w1 0)
    as (w2 & Hrun2 & Hpos2 & Hlook2 & Hs2).
  - unfold default_max_tries. lia.
  - unfold isbn_taken in *. rewrite Ht1, Hb1, Hpos1, Nat.mul_0_r, Nat.add_0_r. exact Hfree.
  - intros j Hj. lia.
  - exists w2. rewrite Hrun2, Ht1, Hpos1, Nat.mul_0_r, Nat.add_0_r.
    split; [reflexivity|]. split; [lia|]. split.
    + rewrite Hlook2, Hlook1, !length_app, length_map, !length_map, !length_seq.
      simpl. lia.
    + apply (same_tables_trans w w1 w2); [|exact Hs2]. repeat split; assumption.
Qed.

Lemma exhausted_search_falls_back_to_sentinel_witness :
  let w := Sample.world (fun _ => 0%N) [Sample.book_taken] [Sample.membership 1 Sample.ion 1] in
  exists w',
    generate_isbn Sample.book_taken w = (Ok "9780000000002"%string, w')
    /\ Z.of_nat (rng_pos w') = 10002%Z.
Proof.
  intros w.
  destruct (exhausted_search_falls_back_to_sentinel Sample.book_taken w "6" "00")
    as (w' & Hrun & Hpos & _).
  - reflexivity.
  - intros j _. reflexivity.
  - reflexivity.
  - exists w'. split; [exact Hrun|]. rewrite Hpos. reflexivity.
Defined.

(** ** The first identifier of a book *)
Section FirstAssignment.

Variable user : string.




End FirstAssignment.



(** ** The identifier column stays free of duplicates *)
Section Uniqueness.

Lemma update_table_cases (user : string) (book : Book.t) (w : World) :
  book_table (snd (_update_book_isbn_if_needed user book w)) = book_table w
  \/ exists new_isbn,
       isbn_taken w new_isbn = false
       /\ book_table (snd (_update_book_isbn_if_needed user book w))
          = map (fun r => if (Book.pk r =? Book.pk book)%Z
                          then Book.set_isbn r new_isbn else r) (book_table w).
Proof.
  set (cases := fun w' : World =>
    book_table w' = book_table w
    \/ exists new_isbn,
         isbn_taken w new_isbn = false
         /\ book_table w'
            = map (fun r => if (Book.pk r =? Book.pk book)%Z
                            then Book.set_isbn r new_isbn else r) (book_table w)).
  change (cases (snd (_update_book_isbn_if_needed user book w))).
  assert (Hw : cases w) by now left.
  unfold _update_book_isbn_if_needed, bind at 1, gets.
  destruct (head (bookauthors_by_order w book)) as [rel|]; [|exact Hw].
  cbv zeta.
  pose proof (generate_isbn_outcome book w) as ((_ & Hb & _) & _ & _ & Hok).
  assert (Hgen : forall (check : string -> bool),
    cases (snd ((let* new_isbn := generate_isbn book in
                 if check new_isbn
                 then let book0 := Book.set_isbn book new_isbn in
                      let* _ := Book_save_isbn book0 in ret book0
                 else ret book) w))).
  { intros check. unfold bind at 1.
    destruct (generate_isbn book w) as [[new_isbn|e1] w1]; cbn [fst snd] in Hb, Hok;
      [|now left].
    destruct (check new_isbn); [|now left]. cbv zeta. unfold bind, ret, Book_save_isbn.
    destruct (existsb _ (book_table w1)); [|now left].
    right. exists new_isbn. split; [now apply Hok|].
    cbn [snd book_table set_book_table Book.pk Book.isbn Book.set_isbn]. now rewrite Hb. }
  destruct (negb (nonempty (Book.isbn book))).
  - exact (Hgen nonempty).
  - match goal with |- context [if ?c then ret book else _] => destruct c end;
      [exact Hw|].
    exact (Hgen (fun new_isbn =>
                   nonempty new_isbn && negb (String.eqb new_isbn (Book.isbn book)))).
Qed.

Lemma replace_isbn_NoDup (k : Z) (new_isbn : string) (l : list Book.t) :
  List.NoDup (map Book.pk l) ->
  List.NoDup (map Book.isbn l) ->
  ~ In new_isbn (map Book.isbn l) ->
  List.NoDup (map Book.pk
                (map (fun r => if (Book.pk r =? k)%Z then Book.set_isbn r new_isbn else r) l))
  /\ List.NoDup (map Book.isbn
                   (map (fun r => if (Book.pk r =? k)%Z then Book.set_isbn r new_isbn else r) l))
  /\ forall i,
       In i (map Book.isbn
               (map (fun r => if (Book.pk r =? k)%Z then Book.set_isbn r new_isbn else r) l)) ->
       i = new_isbn \/ In i (map Book.isbn l).
Proof.
  set (f := fun r => if (Book.pk r =? k)%Z then Book.set_isbn r new_isbn else r).
  assert (Hpk : forall r, Book.pk (f r) = Book.pk r).
  { intros r. unfold f. now destruct (Book.pk r =? k)%Z. }
  intros Hpks Hisbns Hnew.
  assert (Hmem : forall l0 i, In i (map Book.isbn (map f l0)) ->
                              i = new_isbn \/ In i (map Book.isbn l0)).
  { induction l0 as [|r l0 IH]; intros i; simpl; [tauto|].
    intros [<- | Hi].
    - unfold f. destruct (Book.pk r =? k)%Z; auto.
    - destruct (IH i Hi); auto. }
  split; [|split; [|apply Hmem]].
  - rewrite map_map. erewrite map_ext; [exact Hpks | exact Hpk].
  - induction l as [|r l IH]; simpl; [constructor|].
    inversion Hpks as [|? ? Hk1 Hk2]; subst. inversion Hisbns as [|? ? Hi1 Hi2]; subst.
    simpl in Hnew.
    constructor; [|apply IH; tauto].
    intros Hin. unfold f at 1 in Hin.
    destruct (Book.pk r =? k)%Z eqn:Ek.
    + cbn [Book.isbn Book.set_isbn] in Hin.
      (* the other rows have other keys and keep their identifiers *)
      assert (Hsame : map f l = l).
      { clear -Hk1 Ek. apply Z.eqb_eq in Ek. subst k.
        induction l as [|x l IH]; [reflexivity|]. simpl in *.
        unfold f at 1. destruct (Book.pk x =? Book.pk r)%Z eqn:Ex.
        - apply Z.eqb_eq in Ex. exfalso. apply Hk1. now left.
        - f_equal. apply IH. tauto. }
      rewrite Hsame in Hin. tauto.
    + destruct (Hmem l _ Hin) as [E | Hin']; [|contradiction].
      apply Hnew. now left.
Qed.

End Uniqueness.

(** A run of [_update_book_isbn_if_needed] keeps the [Book] table free of
    duplicate keys and of duplicate identifiers, whatever the outcome of
    the run. *)
Theorem update_keeps_isbn_unique (user : string) (book : Book.t) (w : World) :
  List.NoDup (map Book.pk (book_table w)) ->
  List.NoDup (map Book.isbn (book_table w)) ->
  List.NoDup (map Book.pk (book_table (snd (_update_book_isbn_if_needed user book w))))
  /\ List.NoDup (map Book.isbn
                   (book_table (snd (_update_book_isbn_if_needed user book w)))).
Proof.
  intros Hpks Hisbns.
  destruct (update_table_cases user book w) as [-> | (new_isbn & Hfree & ->)];
    [now split|].
  destruct (replace_isbn_NoDup (Book.pk book) new_isbn (book_table w) Hpks Hisbns)
    as (A & B & _); [|now split].
  intros Hin. apply in_map_iff in Hin. destruct Hin as (r & Hr & Hin).
  unfold isbn_taken in Hfree.
  assert (existsb (fun b => String.eqb (Book.isbn b) new_isbn) (book_table w) = true).
  { apply existsb_exists. exists r. split; [exact Hin|]. now apply String.eqb_eq. }
  congruence.
Qed.

Lemma update_keeps_isbn_unique_witness :
  let w := Sample.world (fun i => N.of_nat i) [Sample.book1]
             [Sample.membership 2 Sample.ana 1] in
  List.NoDup (map Book.isbn
                (book_table (snd (_update_book_isbn_if_needed "admin" Sample.book1 w)))).
Proof.
  intros w.
  apply (update_keeps_isbn_unique "admin" Sample.book1 w).
  - repeat constructor; simpl; tauto.
  - repeat constructor; simpl; tauto.
Defined.



(** ** Snapshots and the audit of an update *)
Section AuditedUpdate.

Lemma snapshot_dom (w : World) (book : Book.t) :
  dom (_snapshot_book_state w book) = snapshot_fields.
Proof.
  unfold _snapshot_book_state, snapshot_fields. cbv zeta.
  rewrite !dom_insert_L, dom_empty_L. set_solver.
Qed.

Lemma snapshot_not_empty (w : World) (book : Book.t) :
  dict_is_empty (_snapshot_book_state w book) = false.
Proof.
  apply dict_is_empty_false. intros E.
  pose proof (snapshot_dom w book) as H. rewrite E, dom_empty_L in H.
  assert (Hin : "id"%string ∈ snapshot_fields) by (unfold snapshot_fields; set_solver).
  rewrite <- H in Hin. set_solver.
Qed.

(** The eight values of a snapshot, key by key. *)
Lemma snapshot_lookups (w : World) (book : Book.t) :
  let s := _snapshot_book_state w book in
  dict_get s "id" = VInt (Book.pk book)
  /\ dict_get s "title" = VStr (Book.title book)
  /\ dict_get s "genre" = match Book.genre book with
                           | Some g => VStr (Genre.name g)
                           | None => VNone
                           end
  /\ dict_get s "cover" = str_or_none (Book.cover book)
  /\ dict_get s "adapted" = VBool (Book.adapted book)
  /\ dict_get s "film_title" = str_or_none (Book.film_title book)
  /\ dict_get s "isbn" = str_or_none (Some (Book.isbn book))
  /\ dict_get s "authors"
     = match map BookAuthor.author (bookauthors_by_order w book) with
       | [] => VNone
       | authors => VStr (join ", " (map Author.str authors))
       end.
Proof.
  unfold _snapshot_book_state, dict_get. cbv zeta.
  repeat split;
    repeat (rewrite lookup_insert_ne by (intro; discriminate));
    rewrite ?lookup_insert_eq; try reflexivity.
  now destruct (map BookAuthor.author (bookauthors_by_order w book)).
Qed.

Lemma diff_changed_lookup (before after : gmap string PyVal) (k : string) :
  before <> ∅ ->
  (exists k0, k0 ∈ dom after /\ py_ne (dict_get before k0) (dict_get after k0) = true) ->
  _diff_snapshots (Some before) after !! k
  = match after !! k with
    | Some _ => Some (dict_get before k, dict_get after k)
    | None => None
    end.
Proof.
  intros Hb Hex. rewrite (diff_changed before after Hb Hex), map_lookup_imap.
  now destruct (after !! k).
Qed.

Lemma get_book_after_store (w w1 : World) (book : Book.t) (i : string) :
  book_table w1 = book_table w ->
  get_book w (Book.pk book) = Some book ->
  get_book (store_isbn w1 book i) (Book.pk book) = Some (Book.set_isbn book i).
Proof.
  unfold get_book, store_isbn. cbn [book_table set_book_table]. intros ->.
  induction (book_table w) as [|r l IH]; simpl; [discriminate|].
  destruct (Book.pk r =? Book.pk book)%Z eqn:E.
  - intros [= ->]. cbn [Book.pk Book.set_isbn]. now rewrite Z.eqb_refl.
  - rewrite E. exact IH.
Qed.

Lemma get_book_In (w : World) (k : Z) (book : Book.t) :
  get_book w k = Some book -> In book (book_table w) /\ Book.pk book = k.
Proof.
  unfold get_book. intros H. apply find_some in H as [Hin Hk]. split; [exact Hin | lia].
Qed.

Lemma py_eq_same_kind (x y : PyVal) :
  py_eq x y = true ->
  match x, y with
  | VBool _, VInt _ | VInt _, VBool _ => False
  | _, _ => True
  end ->
  x = y.
Proof.
  destruct x as [|a|a|a], y as [|b|b|b]; simpl; try discriminate; try tauto; intros H _.
  - f_equal. now apply Bool.eqb_prop.
  - f_equal. now apply Z.eqb_eq.
  - f_equal. now apply String.eqb_eq.
Qed.

End AuditedUpdate.

Section SnapshotAfterStore.
Variables (w w1 : World) (book : Book.t) (c : ascii) (rest : string).
Hypothesis Hrows : bookauthor_table w1 = bookauthor_table w.

Lemma snapshot_after_store :
  _snapshot_book_state (store_isbn w1 book (String c rest))
    (Book.set_isbn book (String c rest))
  = <["isbn"%string := VStr (String c rest)]> (_snapshot_book_state w book).
Proof.
  unfold _snapshot_book_state, bookauthors_by_order, store_isbn.
  cbn [bookauthor_table set_book_table Book.pk Book.set_isbn Book.title Book.genre
         Book.cover Book.adapted Book.film_title Book.isbn str_or_none].
  rewrite Hrows. cbv zeta.
  apply map_eq. intros k.
  destruct (decide (k = "isbn"%string)) as [-> | Hk].
  - rewrite lookup_insert_eq.
    repeat (rewrite lookup_insert_ne by (intro; discriminate)).
    now rewrite lookup_insert_eq.
  - rewrite (lookup_insert_ne _ "isbn"%string k) by congruence.
    rewrite !lookup_insert. repeat case_decide; try reflexivity; congruence.
Qed.

End SnapshotAfterStore.

(** An update whose trigger fires is audited: when the stored row is the
    edited book, the primary contributor's normalized code differs from the
    segment of the identifier and the search returns, [save_formset] stores
    the new identifier and appends exactly one UPDATE record, attributed to
    the user, whose changes list every snapshot field, the identifier with
    its old and new value and each other field with its value before and
    its value now. *)
Theorem regeneration_is_audited
  (user : string) (book : Book.t) (w w1 : World)
  (rel : BookAuthor.t) (n : Nationality.t) (new_isbn : string)
  (before : gmap string PyVal) :
  let code3 := _normalize_nat_code (Some (Nationality.code n)) in
  let book' := Book.set_isbn book new_isbn in
  get_book w (Book.pk book) = Some book ->
  primary w book = Some rel ->
  Author.nationality (BookAuthor.author rel) = Some n ->
  Book.isbn book <> EmptyString ->
  embedded_segment (Book.isbn book) <> code3 ->
  generate_unique_isbn_for_nationality (Some (Nationality.code n)) default_max_tries w
  = (Ok new_isbn, w1) ->
  before !! "isbn"%string = Some (VStr (Book.isbn book)) ->
  exists e,
    save_formset_change user book (Some before) w
    = (Ok book', set_audit_log (store_isbn w1 book new_isbn) (audit_log w ++ [e]))
    /\ LogEntry.action e = UPDATE
    /\ LogEntry.actor e = user
    /\ LogEntry.object_pk e = str_of_int (Book.pk book)
    /\ LogEntry.object_repr e = Book.str book'
    /\ LogEntry.changes e !! "isbn"%string = Some (VStr (Book.isbn book), VStr new_isbn)
    /\ dom (LogEntry.changes e) = snapshot_fields
    /\ forall k, k ∈ snapshot_fields -> k <> "isbn"%string ->
         LogEntry.changes e !! k
         = Some (dict_get before k, dict_get (_snapshot_book_state w book) k).
Proof.
  intros code3 book' Hget Hp Hn Hne Hmis Hg Hbefore.
  destruct (get_book_In _ _ _ Hget) as [Hin _].
  pose proof (generate_isbn_first_search book w w1 rel n new_isbn Hp Hn Hg) as Hgi.
  destruct (assign_generated book w w1 new_isbn Hin Hgi)
    as (Hassign & Hdiff & Hnonempty & _ & (_ & Hbt & Hba & Hal) & _).
  assert (Hupd : _update_book_isbn_if_needed user book w
                 = (Ok book', store_isbn w1 book new_isbn)).
  { rewrite (update_mismatch user book w rel n Hp Hn Hne Hmis), Hgi. exact Hassign. }
  destruct new_isbn as [|c rest]; [congruence|].
  set (after := _snapshot_book_state (store_isbn w1 book (String c rest)) book').
  assert (Hafter : after = <["isbn"%string := VStr (String c rest)]>
                             (_snapshot_book_state w book))
    by (apply snapshot_after_store; exact Hba).
  assert (Hdom : dom after = snapshot_fields) by apply snapshot_dom.
  assert (Hb : before <> ∅).
  { intros ->. rewrite lookup_empty in Hbefore. discriminate. }
  assert (Hchanged : exists k, k ∈ dom after
            /\ py_ne (dict_get before k) (dict_get after k) = true).
  { exists "isbn"%string. split.
    - rewrite Hdom. unfold snapshot_fields. set_solver.
    - unfold dict_get. rewrite Hbefore, Hafter, lookup_insert_eq.
      unfold py_ne, py_eq. apply negb_true_iff, String.eqb_neq. congruence. }
  set (changes := _diff_snapshots (Some before) after).
  assert (Hlook : forall k, changes !! k
            = match after !! k with
              | Some _ => Some (dict_get before k, dict_get after k)
              | None => None
              end)
    by (intros k; apply diff_changed_lookup; assumption).
  assert (Hisbn : changes !! "isbn"%string
                  = Some (VStr (Book.isbn book), VStr (String c rest))).
  { rewrite Hlook. unfold dict_get. rewrite Hbefore, Hafter, lookup_insert_eq.
    reflexivity. }
  assert (Hc : dict_is_empty changes = false).
  { apply dict_is_empty_false. intros E. rewrite E, lookup_empty in Hisbn. discriminate. }
  exists {| LogEntry.object_pk := str_of_int (Book.pk book);
            LogEntry.object_repr := Book.str book';
            LogEntry.action := UPDATE;
            LogEntry.changes := changes;
            LogEntry.actor := user |}.
  split; [|split; [reflexivity|split; [reflexivity|split; [reflexivity|
    split; [reflexivity|split; [exact Hisbn|split]]]]]].
  - unfold save_formset_change, bind at 1. rewrite Hupd.
    unfold bind at 1, gets.
    change (Book.pk book') with (Book.pk book).
    rewrite (get_book_after_store w w1 book (String c rest) Hbt Hget). fold book'.
    unfold bind at 1. fold after.
    assert (dict_is_empty before = false) as -> by now apply dict_is_empty_false.
    fold changes. rewrite Hc.
    unfold bind, log_book_update, ret. rewrite Hc.
    unfold store_isbn at 2. cbn [audit_log set_book_table]. rewrite Hal.
    reflexivity.
  - cbn [LogEntry.changes]. apply set_eq. intros k.
    rewrite <- Hdom, !elem_of_dom, Hlook. destruct (after !! k); split; intros [x Hx];
      try discriminate; eauto.
  - intros k Hk Hki. cbn [LogEntry.changes]. rewrite Hlook.
    rewrite <- Hdom in Hk. apply elem_of_dom in Hk as [v Hv]. rewrite Hv.
    do 2 f_equal. unfold dict_get. rewrite Hafter, lookup_insert_ne by congruence.
    reflexivity.
Qed.

Lemma regeneration_is_audited_witness :
  let w := Sample.world (fun i => N.of_nat i) [Sample.book1]
             [Sample.membership 2 Sample.ana 1] in
  exists e w',
    save_formset_change "admin" Sample.book1 (save_model_before w Sample.book1) w
    = (Ok (Book.set_isbn Sample.book1 "9786010000018"), w')
    /\ audit_log w' = [e]
    /\ LogEntry.changes e !! "isbn"%string
       = Some (VStr "9786000000017", VStr "9786010000018").
Proof.
  intros w.
  destruct (regeneration_is_audited "admin" Sample.book1 w
              (snd (generate_unique_isbn_for_nationality (Some "601"%string)
                      default_max_tries w))
              (Sample.membership 2 Sample.ana 1) Sample.moldova "9786010000018"
              (_snapshot_book_state w Sample.book1))
    as (e & Hrun & _ & _ & _ & _ & Hisbn & _).
  - reflexivity.
  - reflexivity.
  - reflexivity.
  - discriminate.
  - discriminate.
  - reflexivity.
  - reflexivity.
  - exists e. eexists. split; [exact Hrun|]. split; [reflexivity | exact Hisbn].
Defined.

(** Without a stored before-snapshot, or with an empty one, [save_formset]
    writes no audit record, whatever [_update_book_isbn_if_needed] did to
    the identifier. *)
Theorem update_without_snapshot_is_not_audited
  (user : string) (book : Book.t) (w : World) :
  audit_log (snd (save_formset_change user book None w)) = audit_log w
  /\ audit_log (snd (save_formset_change user book (Some ∅) w)) = audit_log w
  /\ fst (save_formset_change user book None w)
     = fst (_update_book_isbn_if_needed user book w).
Proof.
  pose proof (update_audit_frame user book w) as Hframe.
  unfold save_formset_change.
  assert (He : dict_is_empty (∅ : gmap string PyVal) = true)
    by now apply dict_is_empty_true.
  assert (He' : dict_is_empty (∅ : gmap string (PyVal * PyVal)) = true)
    by now apply dict_is_empty_true.
  rewrite He, He'. unfold bind, gets, ret.
  destruct (_update_book_isbn_if_needed user book w) as [[b|e] w'];
    cbn [snd fst] in *; auto.
Qed.

Section SnapshotEquality.

Lemma diff_empty_no_change (before after : gmap string PyVal) (k : string) :
  before <> ∅ ->
  _diff_snapshots (Some before) after = ∅ ->
  k ∈ dom after ->
  py_eq (dict_get before k) (dict_get after k) = true.
Proof.
  intros Hb He Hk.
  destruct (py_eq (dict_get before k) (dict_get after k)) eqn:E; [reflexivity|].
  exfalso.
  assert (Hex : exists k0, k0 ∈ dom after
            /\ py_ne (dict_get before k0) (dict_get after k0) = true).
  { exists k. split; [exact Hk|]. unfold py_ne. now rewrite E. }
  pose proof (diff_changed_lookup before after k Hb Hex) as Hl.
  rewrite He, lookup_empty in Hl.
  apply elem_of_dom in Hk as [v Hv]. rewrite Hv in Hl. discriminate.
Qed.

Lemma str_or_none_eq (x y : option string) :
  py_eq (str_or_none x) (str_or_none y) = true -> str_or_none x = str_or_none y.
Proof.
  intros H. apply py_eq_same_kind; [exact H|].
  destruct x as [[|? ?]|], y as [[|? ?]|]; exact I.
Qed.

Lemma same_dom_same_values (a b : gmap string PyVal) :
  dom a = dom b ->
  (forall k, k ∈ dom a -> dict_get a k = dict_get b k) ->
  a = b.
Proof.
  intros Hd Hv. apply map_eq. intros k.
  destruct (a !! k) as [x|] eqn:Ea.
  - assert (Hk : k ∈ dom a) by (apply elem_of_dom; eauto).
    pose proof (Hv k Hk) as E. unfold dict_get in E. rewrite Ea in E.
    rewrite Hd in Hk. apply elem_of_dom in Hk as [y Hy]. rewrite Hy in E |- *.
    now subst.
  - apply not_elem_of_dom in Ea. rewrite Hd in Ea. apply not_elem_of_dom in Ea.
    now rewrite Ea.
Qed.

Lemma snapshots_equal_of_diff_empty (w w' : World) (book book' : Book.t) :
  _diff_snapshots (Some (_snapshot_book_state w book)) (_snapshot_book_state w' book') = ∅ ->
  _snapshot_book_state w book = _snapshot_book_state w' book'.
Proof.
  intros He.
  assert (Hb : _snapshot_book_state w book <> ∅)
    by (apply dict_is_empty_false, snapshot_not_empty).
  apply same_dom_same_values; [now rewrite !snapshot_dom|].
  intros k Hk. rewrite snapshot_dom in Hk.
  assert (Hk' : k ∈ dom (_snapshot_book_state w' book')) by now rewrite snapshot_dom.
  pose proof (diff_empty_no_change _ _ k Hb He Hk') as Heq.
  destruct (snapshot_lookups w book) as (a1 & a2 & a3 & a4 & a5 & a6 & a7 & a8).
  destruct (snapshot_lookups w' book') as (b1 & b2 & b3 & b4 & b5 & b6 & b7 & b8).
  unfold snapshot_fields in Hk.
  rewrite !elem_of_union, !elem_of_singleton in Hk.
  destruct Hk as [[[[[[[-> | ->] | ->] | ->] | ->] | ->] | ->] | ->].
  - rewrite a1, b1 in Heq |- *. now apply py_eq_same_kind.
  - rewrite a2, b2 in Heq |- *. now apply py_eq_same_kind.
  - rewrite a3, b3 in Heq |- *. apply py_eq_same_kind; [exact Heq|].
    now destruct (Book.genre book), (Book.genre book').
  - rewrite a4, b4 in Heq |- *. now apply str_or_none_eq.
  - rewrite a5, b5 in Heq |- *. now apply py_eq_same_kind.
  - rewrite a6, b6 in Heq |- *. now apply str_or_none_eq.
  - rewrite a7, b7 in Heq |- *. now apply str_or_none_eq.
  - rewrite a8, b8 in Heq |- *. apply py_eq_same_kind; [exact Heq|].
    now destruct (map BookAuthor.author (bookauthors_by_order w book)),
                 (map BookAuthor.author (bookauthors_by_order w' book')).
Qed.

(** A difference that is not empty lists every key of [after]. *)
Lemma diff_nonempty_lookup (before after : gmap string PyVal) (k : string) :
  _diff_snapshots (Some before) after <> ∅ ->
  _diff_snapshots (Some before) after !! k
  = match after !! k with
    | Some _ => Some (dict_get before k, dict_get after k)
    | None => None
    end.
Proof.
  unfold _diff_snapshots. destruct (dict_is_empty before); [congruence|]. cbv zeta.
  destruct (existsb _ _); cbn [negb]; [|congruence].
  intros _. rewrite map_lookup_imap. now destruct (after !! k).
Qed.

End SnapshotEquality.

(** The change detection of [_diff_snapshots] is exact on snapshots: the
    difference of two snapshots taken by [_snapshot_book_state] is empty
    exactly when the two snapshots are the same dictionary. *)
Theorem snapshot_diff_empty_iff (w w' : World) (book book' : Book.t) :
  _diff_snapshots (Some (_snapshot_book_state w book)) (_snapshot_book_state w' book') = ∅
  <-> _snapshot_book_state w book = _snapshot_book_state w' book'.
Proof.
  split.
  - apply snapshots_equal_of_diff_empty.
  - intros <-. apply diff_same.
Qed.

(** ** Memberships: where a new contributor goes *)
Section NewContributor.
Context {A : Type} (le : A -> A -> bool).



End NewContributor.




(** ** The film title rule of the book form *)
Section BookFormClean.

Lemma add_error_changes (field message : string) (f : Form.t) :
  Form.errors (add_error field message f) <> Form.errors f.
Proof.
  unfold add_error. cbn [Form.errors]. intros E.
  assert (H : (<[field := match Form.errors f !! field with
                          | Some l => l ++ [message]
                          | None => [message]
                          end]> (Form.errors f)) !! field = Form.errors f !! field)
    by now rewrite E.
  rewrite lookup_insert_eq in H.
  destruct (Form.errors f !! field) as [l|]; [|discriminate].
  injection H as H. apply (f_equal (@List.length string)) in H.
  rewrite length_app in H. simpl in H. lia.
Qed.

End BookFormClean.

(** [BookForm.clean] enforces the film title rule.  It records an error
    exactly when the book is marked as adapted and has no film title; the
    message is then the last error of the field and the field is gone from
    the cleaned data.  When it records none, a book that is not adapted has
    the film title [None], whatever was entered, and an adapted book keeps
    its non-empty film title.  No other field is touched. *)
Theorem bookform_clean_film_title (f : Form.t) :
  let f' := BookForm_clean f in
  let adapted := py_truthy (dict_get (Form.cleaned_data f) "adapted") in
  let film_title := dict_get (Form.cleaned_data f) "film_title" in
  (Form.errors f' <> Form.errors f
   <-> adapted = true /\ py_truthy film_title = false)
  /\ (Form.errors f' = Form.errors f ->
      if adapted
      then py_truthy film_title = true /\ f' = f
      else Form.cleaned_data f' !! "film_title"%string = Some VNone)
  /\ (Form.errors f' <> Form.errors f ->
      Form.cleaned_data f' !! "film_title"%string = None
      /\ exists l, Form.errors f' !! "film_title"%string = Some (l ++ [film_title_message]))
  /\ (forall k, k <> "film_title"%string ->
        Form.cleaned_data f' !! k = Form.cleaned_data f !! k
        /\ Form.errors f' !! k = Form.errors f !! k).
Proof.
  cbv zeta. unfold BookForm_clean. cbv zeta.
  destruct (py_truthy (dict_get (Form.cleaned_data f) "adapted")) eqn:Ea;
    cbn [andb negb].
  - destruct (py_truthy (dict_get (Form.cleaned_data f) "film_title")) eqn:Ef;
      cbn [negb].
    + split; [split; [congruence | intros [_ ?]; discriminate]|].
      split; [auto|]. split; [congruence|]. auto.
    + pose proof (add_error_changes "film_title" film_title_message f) as Hne.
      fold film_title_message.
      split; [split; auto|]. split; [congruence|].
      split.
      * intros _. unfold add_error. cbn [Form.cleaned_data Form.errors].
        rewrite lookup_delete_eq, lookup_insert_eq. split; [reflexivity|].
        destruct (Form.errors f !! "film_title"%string) as [l|];
          [exists l | exists []]; reflexivity.
      * intros k Hk. unfold add_error. cbn [Form.cleaned_data Form.errors].
        rewrite lookup_delete_ne, lookup_insert_ne by congruence. auto.
  - cbn [Form.cleaned_data Form.errors].
    split; [split; [congruence | intros [? _]; discriminate]|].
    split; [intros _; apply lookup_insert_eq|]. split; [congruence|].
    intros k Hk. rewrite lookup_insert_ne by congruence. auto.
Qed.

Lemma bookform_clean_film_title_witness :
  let f := {| Form.cleaned_data :=
                <["adapted"%string := VBool true]>
                  (<["film_title"%string := VStr ""]> (<["title"%string := VStr "Dune"]> ∅));
              Form.errors := ∅ |} in
  Form.errors (BookForm_clean f) <> Form.errors f
  /\ Form.cleaned_data (BookForm_clean f) !! "film_title"%string = None.
Proof.
  intros f.
  destruct (bookform_clean_film_title f) as ((_ & Herr) & _ & Hgone & _).
  assert (H : Form.errors (BookForm_clean f) <> Form.errors f)
    by (apply Herr; split; reflexivity).
  split; [exact H | exact (proj1 (Hgone H))].
Defined.

(** ** The audit record of a creation *)
Section Creation.

Lemma represent_author (a : Author.t) :
  represent_related (Some (RAuthor a)) = VStr (Author_name a).
Proof. reflexivity. Qed.

Lemma strings_of_names (l : list Author.t) :
  strings_of (map (fun a => represent_related (Some (RAuthor a))) l)
  = Some (map Author_name l).
Proof.
  induction l as [|a l IH]; [reflexivity|].
  cbn [map]. rewrite represent_author. cbn [strings_of]. now rewrite IH.
Qed.

(** The dictionary the serializer builds from a stored row. *)
Lemma serialize_found (w : World) (book stored : Book.t) (g : Genre.t) :
  get_book w (Book.pk book) = Some stored ->
  Book.genre stored = Some g ->
  exists data,
    serialize_model_instance w book = Done data
    /\ dom data = snapshot_fields
    /\ data !! "id"%string = Some (VInt (Book.pk stored))
    /\ data !! "title"%string = Some (VStr (Book.title stored))
    /\ data !! "authors"%string
       = Some (VStr (join ", " (map Author_name (book_authors w stored))))
    /\ data !! "genre"%string = Some (VStr (Genre.name g))
    /\ data !! "cover"%string = Some (str_or_none (Book.cover stored))
    /\ data !! "adapted"%string = Some (VBool (Book.adapted stored))
    /\ data !! "film_title"%string
       = Some (match Book.film_title stored with
               | Some t => VStr t
               | None => VNone
               end)
    /\ data !! "isbn"%string = Some (VStr (Book.isbn stored)).
Proof.
  intros Hget Hg. unfold serialize_model_instance, get_book_related.
  rewrite Hget, Hg, strings_of_names. eexists. split; [reflexivity|].
  split.
  { rewrite !dom_insert_L, dom_empty_L. unfold snapshot_fields. set_solver. }
  repeat split;
    repeat (rewrite lookup_insert_ne by (intro; discriminate));
    rewrite ?lookup_insert_eq; try reflexivity.
  now rewrite Hg.
Qed.

Lemma book_authors_nil (w : World) (book : Book.t) :
  primary w book = None -> book_authors w book = [].
Proof.
  unfold primary, bookauthors_by_order, book_authors. intros H.
  destruct (sort_by order_le _) as [|x l] eqn:E; [|discriminate].
  apply sort_by_nil in E. now rewrite E.
Qed.

Lemma get_stored_after_store (w w1 : World) (book stored : Book.t) (i : string) :
  book_table w1 = book_table w ->
  get_book w (Book.pk book) = Some stored ->
  get_book (store_isbn w1 book i) (Book.pk book) = Some (Book.set_isbn stored i).
Proof.
  unfold get_book, store_isbn. cbn [book_table set_book_table]. intros ->.
  induction (book_table w) as [|r l IH]; simpl; [discriminate|].
  destruct (Book.pk r =? Book.pk book)%Z eqn:E.
  - intros [= ->]. cbn [Book.pk Book.set_isbn]. now rewrite E.
  - rewrite E. exact IH.
Qed.

Lemma book_authors_same_rows (w w' : World) (book book' : Book.t) :
  bookauthor_table w' = bookauthor_table w ->
  Book.pk book' = Book.pk book ->
  book_authors w' book' = book_authors w book.
Proof. unfold book_authors. now intros -> ->. Qed.

End Creation.

(** A creation is audited once: when the new book has a contributor, its
    stored row has a genre and [Book.generate_isbn] returns,
    [_finalize_book_creation] writes the identifier to the row and appends
    exactly one CREATE record, attributed to the user, whose changes list
    the eight fields, each with the old value [None]; the identifier
    recorded is the one just stored and the authors are the names in the
    authors' default ordering. *)
Theorem creation_is_audited
  (user : string) (book stored : Book.t) (g : Genre.t) (rel : BookAuthor.t)
  (new_isbn : string) (w w1 : World) :
  let book' := Book.set_isbn book new_isbn in
  get_book w (Book.pk book) = Some stored ->
  Book.genre stored = Some g ->
  primary w book = Some rel ->
  generate_isbn book w = (Ok new_isbn, w1) ->
  exists e,
    _finalize_book_creation user book w
    = (Done book', set_audit_log (store_isbn w1 book new_isbn) (audit_log w ++ [e]))
    /\ LogEntry.action e = CREATE
    /\ LogEntry.actor e = user
    /\ LogEntry.object_pk e = str_of_int (Book.pk book)
    /\ LogEntry.object_repr e = Book.str book'
    /\ dom (LogEntry.changes e) = snapshot_fields
    /\ (forall k v, LogEntry.changes e !! k = Some v -> fst v = VNone)
    /\ LogEntry.changes e !! "isbn"%string = Some (VNone, VStr new_isbn)
    /\ LogEntry.changes e !! "title"%string = Some (VNone, VStr (Book.title stored))
    /\ LogEntry.changes e !! "authors"%string
       = Some (VNone, VStr (join ", " (map Author_name (book_authors w book)))).
Proof.
  intros book' Hget Hg Hp Hgen.
  destruct (get_book_In _ _ _ Hget) as [Hin Hpk].
  pose proof (generate_isbn_outcome book w) as ((_ & Hbt & Hba & Hal) & _).
  rewrite Hgen in Hbt, Hba, Hal. cbn [snd] in Hbt, Hba, Hal.
  set (w2 := store_isbn w1 book new_isbn).
  assert (Hsave : Book_save_isbn book' w1 = (Ok tt, w2)).
  { apply (save_isbn_saved book' stored w1); [now rewrite Hbt | exact Hpk]. }
  assert (Hget2 : get_book w2 (Book.pk book') = Some (Book.set_isbn stored new_isbn))
    by exact (get_stored_after_store w w1 book stored new_isbn Hbt Hget).
  destruct (serialize_found w2 book' (Book.set_isbn stored new_isbn) g Hget2 Hg)
    as (data & Hser & Hdom & _ & Htitle & Hauthors & _ & _ & _ & _ & Hisbn).
  exists {| LogEntry.object_pk := str_of_int (Book.pk book);
            LogEntry.object_repr := Book.str book';
            LogEntry.action := CREATE;
            LogEntry.changes := (fun value => (VNone, value)) <$> data;
            LogEntry.actor := user |}.
  cbn [LogEntry.action LogEntry.actor LogEntry.object_pk LogEntry.object_repr
         LogEntry.changes].
  split; [|split; [reflexivity|split; [reflexivity|split; [reflexivity|
    split; [reflexivity|split; [|split; [|split; [|split]]]]]]]].
  - unfold _finalize_book_creation. fold (primary w book). rewrite Hp.
    unfold and_then at 1, lift at 1. rewrite Hgen. fold book'.
    unfold and_then at 1, lift. rewrite Hsave.
    unfold and_then, log_book_creation. rewrite Hser.
    unfold w2 at 2, store_isbn. cbn [audit_log set_book_table]. rewrite Hal.
    reflexivity.
  - now rewrite dom_fmap_L.
  - intros k v. rewrite lookup_fmap. destruct (data !! k); intros [= <-]. reflexivity.
  - now rewrite lookup_fmap, Hisbn.
  - now rewrite lookup_fmap, Htitle.
  - rewrite lookup_fmap, Hauthors. cbn [fmap option_fmap option_map].
    do 5 f_equal. apply book_authors_same_rows; [exact Hba | exact Hpk].
Qed.

Lemma creation_is_audited_witness :
  let book := Book.set_isbn Sample.book1 "" in
  let w := Sample.world (fun i => N.of_nat i) [book] [Sample.membership 2 Sample.ana 1] in
  exists e w',
    _finalize_book_creation "admin" book w
    = (Done (Book.set_isbn book "9786010000018"), w')
    /\ audit_log w' = [e]
    /\ LogEntry.changes e !! "isbn"%string = Some (VNone, VStr "9786010000018").
Proof.
  intros book w.
  destruct (creation_is_audited "admin" book book {| Genre.name := "Fiction" |}
              (Sample.membership 2 Sample.ana 1) "9786010000018" w
              (snd (generate_isbn book w)))
    as (e & Hrun & _ & _ & _ & _ & _ & _ & Hisbn & _).
  - reflexivity.
  - reflexivity.
  - reflexivity.
  - reflexivity.
  - exists e. eexists. split; [exact Hrun|]. split; [reflexivity | exact Hisbn].
Defined.

(** A book created without contributors is recorded as it is stored:
    [_finalize_book_creation] draws nothing and writes nothing to the
    books, and the CREATE record carries the stored identifier, the empty
    string for a new book, and the empty string as the list of authors. *)
Theorem creation_without_contributor
  (user : string) (book stored : Book.t) (g : Genre.t) (w : World) :
  get_book w (Book.pk book) = Some stored ->
  Book.genre stored = Some g ->
  primary w book = None ->
  exists e,
    _finalize_book_creation user book w
    = (Done book, set_audit_log w (audit_log w ++ [e]))
    /\ LogEntry.action e = CREATE
    /\ LogEntry.actor e = user
    /\ LogEntry.object_repr e = Book.str book
    /\ LogEntry.changes e !! "isbn"%string = Some (VNone, VStr (Book.isbn stored))
    /\ LogEntry.changes e !! "authors"%string = Some (VNone, VStr "").
Proof.
  intros Hget Hg Hp.
  destruct (serialize_found w book stored g Hget Hg)
    as (data & Hser & _ & _ & _ & Hauthors & _ & _ & _ & _ & Hisbn).
  destruct (get_book_In _ _ _ Hget) as [_ Hpk].
  exists {| LogEntry.object_pk := str_of_int (Book.pk book);
            LogEntry.object_repr := Book.str book;
            LogEntry.action := CREATE;
            LogEntry.changes := (fun value => (VNone, value)) <$> data;
            LogEntry.actor := user |}.
  cbn [LogEntry.action LogEntry.actor LogEntry.object_repr LogEntry.changes].
  split; [|split; [reflexivity|split; [reflexivity|split; [reflexivity|split]]]].
  - unfold _finalize_book_creation. fold (primary w book). rewrite Hp.
    unfold and_then, log_book_creation. now rewrite Hser.
  - now rewrite lookup_fmap, Hisbn.
  - rewrite lookup_fmap, Hauthors.
    rewrite (book_authors_same_rows w w book stored eq_refl Hpk).
    now rewrite (book_authors_nil w book Hp).
Qed.

Lemma creation_without_contributor_witness :
  let book := Book.set_isbn Sample.book1 "" in
  let w := Sample.world (fun i => N.of_nat i) [book] [] in
  exists e,
    _finalize_book_creation "admin" book w
    = (Done book, set_audit_log w [e])
    /\ LogEntry.changes e !! "isbn"%string = Some (VNone, VStr "").
Proof.
  intros book w.
  destruct (creation_without_contributor "admin" book book {| Genre.name := "Fiction" |} w)
    as (e & Hrun & _ & _ & _ & Hisbn & _).
  - reflexivity.
  - reflexivity.
  - reflexivity.
  - exists e. split; [exact Hrun | exact Hisbn].
Defined.

(** [_finalize_book_creation] appends a record exactly when it returns:
    one CREATE record for the user, named after the book as the method
    leaves it, which has the key of the book and is found in the table;
    when the generator, the write or the serializer raises, the audit log
    is as it was. *)
Theorem creation_audited_iff_returned (user : string) (book : Book.t) (w : World) :
  match _finalize_book_creation user book w with
  | (Done b, w') =>
      exists e,
        audit_log w' = audit_log w ++ [e]
        /\ LogEntry.action e = CREATE
        /\ LogEntry.actor e = user
        /\ LogEntry.object_repr e = Book.str b
        /\ Book.pk b = Book.pk book
        /\ exists stored, get_book w' (Book.pk book) = Some stored
  | (Failed _, w') => audit_log w' = audit_log w
  end.
Proof.
  assert (Hlog : forall (b : Book.t) (w0 : World),
    audit_log w0 = audit_log w ->
    Book.pk b = Book.pk book ->
    match and_then (log_book_creation user b) (fun _ => fun w => (Done b, w)) w0 with
    | (Done b, w') =>
        exists e,
          audit_log w' = audit_log w ++ [e]
          /\ LogEntry.action e = CREATE
          /\ LogEntry.actor e = user
          /\ LogEntry.object_repr e = Book.str b
          /\ Book.pk b = Book.pk book
          /\ exists stored, get_book w' (Book.pk book) = Some stored
    | (Failed _, w') => audit_log w' = audit_log w
    end).
  { intros b w0 Hal Hpk. unfold and_then, log_book_creation.
    unfold serialize_model_instance, get_book_related. rewrite Hpk.
    destruct (get_book w0 (Book.pk book)) as [stored|] eqn:Hget; [|exact Hal].
    destruct (Book.genre stored); [|exact Hal].
    rewrite strings_of_names.
    eexists. cbn [audit_log set_audit_log]. rewrite Hal.
    split; [reflexivity|]. do 4 (split; [first [reflexivity | exact Hpk]|]).
    exists stored. exact Hget. }
  unfold _finalize_book_creation.
  destruct (head (bookauthors_by_order w book)) as [rel|].
  - unfold and_then at 1, lift at 1.
    pose proof (generate_isbn_outcome book w) as ((_ & Hbt & _ & Hal) & _).
    destruct (generate_isbn book w) as [[new_isbn|e] w1]; cbn [snd] in Hbt, Hal;
      [|exact Hal].
    unfold and_then at 1, lift, Book_save_isbn.
    cbn [Book.pk Book.set_isbn].
    destruct (existsb (fun r => (Book.pk r =? Book.pk book)%Z) (book_table w1));
      [|exact Hal].
    apply Hlog; [exact Hal | reflexivity].
  - apply Hlog; reflexivity.
Qed.

(** ** Edits that leave the identifier alone *)

(** An edit is audited exactly when it shows in the snapshot.  For an
    update that leaves the identifier alone, with the snapshot [save_model]
    took of the row before the edit: when the snapshot taken after equals
    it, [save_formset] changes nothing; when it differs, [save_formset]
    appends exactly one UPDATE record for the user, which lists every
    snapshot field with its value before and after. *)
Theorem edit_audited_iff_snapshot_changed
  (user : string) (book old : Book.t) (w w0 : World) :
  let before := _snapshot_book_state w0 old in
  let after := _snapshot_book_state w book in
  get_book w (Book.pk book) = Some book ->
  _update_book_isbn_if_needed user book w = (Ok book, w) ->
  (before = after ->
   save_formset_change user book (Some before) w = (Ok book, w))
  /\ (before <> after ->
      exists e,
        save_formset_change user book (Some before) w
        = (Ok book, set_audit_log w (audit_log w ++ [e]))
        /\ LogEntry.action e = UPDATE
        /\ LogEntry.actor e = user
        /\ LogEntry.object_repr e = Book.str book
        /\ dom (LogEntry.changes e) = snapshot_fields
        /\ forall k, k ∈ snapshot_fields ->
             LogEntry.changes e !! k = Some (dict_get before k, dict_get after k)).
Proof.
  intros before after Hget Hupd.
  assert (Hrun : save_formset_change user book (Some before) w
                 = (let changes := _diff_snapshots (Some before) after in
                    if dict_is_empty changes then ret book
                    else let* _ := log_book_update user book changes in ret book) w).
  { unfold save_formset_change, bind at 1. rewrite Hupd.
    unfold bind at 1, gets. rewrite Hget. unfold bind at 1. fold after.
    unfold before at 1. now rewrite snapshot_not_empty. }
  assert (Hdom : dom after = snapshot_fields) by apply snapshot_dom.
  assert (Hdiff : _diff_snapshots (Some before) after = ∅ -> before = after)
    by apply snapshots_equal_of_diff_empty.
  clearbody before after.
  split.
  - intros E. rewrite Hrun. cbv zeta. rewrite E, diff_same.
    assert (dict_is_empty (∅ : gmap string (PyVal * PyVal)) = true) as ->
      by now apply dict_is_empty_true.
    reflexivity.
  - intros Hne.
    assert (Hc : _diff_snapshots (Some before) after <> ∅)
      by (intros E; apply Hne; now apply Hdiff).
    pose proof (fun k => diff_nonempty_lookup before after k Hc) as Hlook.
    exists {| LogEntry.object_pk := str_of_int (Book.pk book);
              LogEntry.object_repr := Book.str book;
              LogEntry.action := UPDATE;
              LogEntry.changes := _diff_snapshots (Some before) after;
              LogEntry.actor := user |}.
    cbn [LogEntry.action LogEntry.actor LogEntry.object_repr LogEntry.changes].
    split; [|split; [reflexivity|split; [reflexivity|split; [reflexivity|split]]]].
    + rewrite Hrun. cbv zeta. apply dict_is_empty_false in Hc.
      rewrite Hc. unfold bind, log_book_update, ret. now rewrite Hc.
    + apply set_eq. intros k. rewrite <- Hdom, !elem_of_dom, Hlook.
      destruct (after !! k) as [v|].
      * split; intros _; eexists; reflexivity.
      * split; intros [x Hx]; discriminate Hx.
    + intros k Hk. rewrite Hlook. rewrite <- Hdom in Hk.
      apply elem_of_dom in Hk as [v Hv]. now rewrite Hv.
Qed.

Lemma edit_audited_iff_snapshot_changed_witness :
  let rows := [Sample.membership 1 Sample.ion 1] in
  let w0 := Sample.world (fun _ => 0%N) [Sample.book1] rows in
  let w := Sample.world (fun _ => 0%N) [Sample.book1_retitled] rows in
  exists e,
    save_formset_change "admin" Sample.book1_retitled
      (save_model_before w0 Sample.book1_retitled) w
    = (Ok Sample.book1_retitled, set_audit_log w [e])
    /\ LogEntry.changes e !! "title"%string
       = Some (VStr "My Book", VStr "Another Title")
    /\ LogEntry.changes e !! "isbn"%string
       = Some (VStr "9786000000017", VStr "9786000000017").
Proof.
  intros rows w0 w.
  destruct (edit_audited_iff_snapshot_changed "admin" Sample.book1_retitled
              Sample.book1 w w0 eq_refl eq_refl) as [_ H].
  destruct H as (e & Hrun & _ & _ & _ & _ & Hk).
  - intros E.
    assert (Ht : _snapshot_book_state w0 Sample.book1 !! "title"%string
                 = _snapshot_book_state w Sample.book1_retitled !! "title"%string)
      by now rewrite E.
    discriminate Ht.
  - exists e. split; [exact Hrun|]. split.
    + rewrite Hk; [reflexivity|]. unfold snapshot_fields. set_solver.
    + rewrite Hk; [reflexivity|]. unfold snapshot_fields. set_solver.
Defined.

(** ** The serializer and the snapshot *)

(** The CREATE record and the snapshots describe a stored book under the
    same eight keys and agree on id, title, genre, cover and adapted.
    They differ on empty values: an empty film title or identifier is
    serialized as it is stored and is [None] in the snapshot, and a book
    without contributors has the authors [''] serialized and [None] in
    the snapshot. *)
Theorem serializer_and_snapshot (w : World) (book stored : Book.t) (g : Genre.t) :
  get_book w (Book.pk book) = Some stored ->
  Book.genre stored = Some g ->
  exists data,
    let snapshot := _snapshot_book_state w stored in
    serialize_model_instance w book = Done data
    /\ dom data = dom snapshot
    /\ (forall k, In k ["id"; "title"; "genre"; "cover"; "adapted"]%string ->
          data !! k = snapshot !! k)
    /\ (forall k, In k ["film_title"; "isbn"]%string ->
          dict_get snapshot k
          = if py_truthy (dict_get data k) then dict_get data k else VNone)
    /\ (primary w stored = None ->
        data !! "authors"%string = Some (VStr "")
        /\ snapshot !! "authors"%string = Some VNone).
Proof.
  intros Hget Hg.
  destruct (serialize_found w book stored g Hget Hg)
    as (data & Hser & Hdom & d1 & d2 & d3 & d4 & d5 & d6 & d7 & d8).
  exists data. cbv zeta.
  assert (Hs : forall k v, dict_get (_snapshot_book_state w stored) k = v ->
                 k ∈ snapshot_fields ->
                 _snapshot_book_state w stored !! k = Some v).
  { intros k v Hv Hk. rewrite <- (snapshot_dom w stored) in Hk.
    apply elem_of_dom in Hk as [x Hx]. unfold dict_get in Hv. rewrite Hx in Hv.
    now subst. }
  assert (Hin : forall k, In k ["id"; "title"; "genre"; "cover"; "adapted";
                                "film_title"; "isbn"; "authors"]%string ->
                  k ∈ snapshot_fields).
  { intros k Hk. unfold snapshot_fields.
    rewrite !elem_of_union, !elem_of_singleton. simpl in Hk.
    repeat (destruct Hk as [<- | Hk]; [auto 10|]). destruct Hk. }
  destruct (snapshot_lookups w stored) as (s1 & s2 & s3 & s4 & s5 & s6 & s7 & s8).
  split; [exact Hser|]. split; [now rewrite snapshot_dom|]. split; [|split].
  - intros k [<- | [<- | [<- | [<- | [<- | []]]]]].
    + rewrite d1. symmetry. apply Hs; [exact s1 | apply Hin; simpl; tauto].
    + rewrite d2. symmetry. apply Hs; [exact s2 | apply Hin; simpl; tauto].
    + rewrite d4. symmetry. apply Hs; [now rewrite s3, Hg | apply Hin; simpl; tauto].
    + rewrite d5. symmetry. apply Hs; [exact s4 | apply Hin; simpl; tauto].
    + rewrite d6. symmetry. apply Hs; [exact s5 | apply Hin; simpl; tauto].
  - intros k [<- | [<- | []]].
    + rewrite s6. unfold dict_get. rewrite d7.
      now destruct (Book.film_title stored) as [[|c r]|].
    + rewrite s7. unfold dict_get. rewrite d8.
      now destruct (Book.isbn stored) as [|c r].
  - intros Hp. split.
    + now rewrite d3, (book_authors_nil w stored Hp).
    + apply Hs; [|apply Hin; simpl; tauto]. rewrite s8.
      unfold primary in Hp. now destruct (bookauthors_by_order w stored).
Qed.

Lemma serializer_and_snapshot_witness :
  let book := Book.set_isbn Sample.book1 "" in
  let w := Sample.world (fun _ => 0%N) [book] [] in
  exists data,
    serialize_model_instance w book = Done data
    /\ data !! "authors"%string = Some (VStr "")
    /\ _snapshot_book_state w book !! "authors"%string = Some VNone.
Proof.
  intros book w.
  destruct (serializer_and_snapshot w book book {| Genre.name := "Fiction" |}
              eq_refl eq_refl) as (data & Hser & _ & _ & _ & Hauthors).
  exists data. split; [exact Hser | exact (Hauthors eq_refl)].
Defined.
